(** * PestAPI (app.py): a shallow embedding and its verified properties

    The Flask application of [app.py] has the views [health] and [predict]
    and one background thread ([cleanup_worker]); they are embedded as
    state-passing functions over a [world] that holds what they touch: the
    upload directory, the clock, the log, the source of uuids and the heap
    of PIL image objects.  Python exceptions are explicit ([outcome]);
    [try ... except Exception] is the combinator [try_except].  The third
    view, [serve_static], is not embedded: see the note where it would
    stand. *)

From Stdlib Require Import ZArith Floats String List Lia.
From Stdlib.Strings Require Import Byte.
From stdpp Require Import gmap strings list pretty.

Set Warnings "-register-all,-inexact-float".

Open Scope string_scope.
Open Scope Z_scope.

(** ** Python values *)

(** A Python [float] is an IEEE binary64 value. *)
Abbreviation pyfloat := PrimFloat.float.

(** [x > n] for a float [x] and an int [n].  Python compares the two exactly
    (the int is not rounded to a float); a nan compares false. *)
Definition float_gt_int (x : pyfloat) (n : Z) : bool :=
  match Prim2SF x with
  | S754_nan => false
  | S754_infinity s => negb s
  | S754_zero _ => n <? 0
  | S754_finite s m e =>
      let v := if s then Z.neg m else Z.pos m in
      if 0 <=? e then n <? v * 2 ^ e else n * 2 ^ (- e) <? v
  end.

(** [x <= n], again exact and false on a nan. *)
Definition float_le_int (x : pyfloat) (n : Z) : bool :=
  match Prim2SF x with
  | S754_nan => false
  | S754_infinity s => s
  | S754_zero _ => 0 <=? n
  | S754_finite s m e =>
      let v := if s then Z.neg m else Z.pos m in
      if 0 <=? e then v * 2 ^ e <=? n else v <=? n * 2 ^ (- e)
  end.

(** Quotient of [a] by [b > 0] rounded to the nearest integer, ties to even. *)
Definition div_half_even (a b : Z) : Z :=
  let q := a / b in
  let r := a mod b in
  if 2 * r <? b then q
  else if b <? 2 * r then q + 1
  else if Z.even q then q else q + 1.

(** The format specification [:.2f]: the exact value of the float rounded to
    two decimals. *)
Definition format_2f (x : pyfloat) : string :=
  let digits (h : Z) : string :=
    pretty (h / 100) +:+ "." +:+ pretty (h mod 100 / 10) +:+ pretty (h mod 10) in
  match Prim2SF x with
  | S754_nan => "nan"
  | S754_infinity s => if s then "-inf" else "inf"
  | S754_zero s => (if s then "-" else "") +:+ "0.00"
  | S754_finite s m e =>
      let h := if 0 <=? e then 100 * Z.pos m * 2 ^ e
               else div_half_even (100 * Z.pos m) (2 ^ (- e)) in
      (if s then "-" else "") +:+ digits h
  end.

(** JSON values, as [jsonify] receives them: dicts keep their items in
    insertion order. *)
Inductive json : Type :=
| JBool (b : bool)
| JInt (n : Z)
| JFloat (x : pyfloat)
| JStr (s : string)
| JList (items : list json)
| JDict (items : list (string * json)).

(** ** Exceptions and the monad of Python code *)

(** An exception: its class name and [str(e)]. *)
Record exn : Type := Exn { exn_class : string; exn_str : string }.

Inductive outcome (A : Type) : Type :=
| Return (a : A)
| Raise (e : exn).
Arguments Return {A} a.
Arguments Raise {A} e.

(** A computation over a state [S]: it ends normally or raises, and what it
    did to the state before raising stays done. *)
Definition Py (S A : Type) : Type := S -> outcome A * S.

Section PyMonad.
Context {S : Type}.

Definition ret {A} (a : A) : Py S A := fun s => (Return a, s).

Definition bind {A B} (m : Py S A) (k : A -> Py S B) : Py S B :=
  fun s =>
    match m s with
    | (Return a, s') => k a s'
    | (Raise e, s') => (Raise e, s')
    end.

(** [try: m except Exception as e: h e] *)
Definition try_except {A} (m : Py S A) (h : exn -> Py S A) : Py S A :=
  fun s =>
    match m s with
    | (Return a, s') => (Return a, s')
    | (Raise e, s') => h e s'
    end.

Definition modify (f : S -> S) : Py S unit := fun s => (Return tt, f s).

(** A pure library call that may raise. *)
Definition lift {A} (o : outcome A) : Py S A := fun s => (o, s).

(** [for x in xs: body x] *)
Fixpoint for_each {X} (xs : list X) (body : X -> Py S unit) : Py S unit :=
  match xs with
  | [] => ret tt
  | x :: rest => bind (body x) (fun _ => for_each rest body)
  end.

(** [for x in xs: acc = body acc x], for a rebound local [acc]. *)
Fixpoint for_fold {X A} (xs : list X) (acc : A) (body : A -> X -> Py S A)
  : Py S A :=
  match xs with
  | [] => ret acc
  | x :: rest => bind (body acc x) (fun acc' => for_fold rest acc' body)
  end.
End PyMonad.

Declare Scope py_scope.
Delimit Scope py_scope with py.
Notation "x <- m ;; k" := (bind m (fun x => k))
  (at level 100, m at next level, right associativity) : py_scope.
Notation "m ;; k" := (bind m (fun _ => k))
  (at level 100, right associativity) : py_scope.
Open Scope py_scope.

(** ** The libraries the application calls *)

(** Pillow, as far as [predict] uses it.  An image is a value; the objects
    that hold images live in the heap of the [world] below.  A drawing call
    that raises leaves the image as it was. *)
Class Imaging : Type := {
  image : Type;
  (** [Image.open(io.BytesIO(data)).convert("RGB")] *)
  image_open : list byte -> outcome image;
  (** the pixels after [draw.rectangle(xy, outline="red", width=3)] *)
  rectangle : image -> list pyfloat -> outcome image;
  (** the pixels after [draw.text(xy, s, fill="red")] *)
  text : image -> pyfloat * pyfloat -> string -> outcome image;
  (** the bytes [image.save] writes to a [.jpg] path *)
  jpeg_encode : image -> outcome (list byte)
}.

(** The YOLO model loaded once at startup: [model(image)], each result given
    as its [result.boxes.data.tolist()], and the dict [model.names]. *)
Class Detector (I : Imaging) : Type := {
  model_call : image -> outcome (list (list (list pyfloat)));
  model_names : gmap Z string
}.
Arguments model_call {I _} img.
Arguments model_names {I _}.

(** Configuration, read from the environment at import. *)
Record config : Type := Config {
  UPLOAD_DIR : string;
  CLEANUP_INTERVAL_SECONDS : Z;
  FILE_MAX_AGE_SECONDS : Z
}.

Definition default_config : config :=
  {| UPLOAD_DIR := "static";
     CLEANUP_INTERVAL_SECONDS := 60 * 60 * 6;
     FILE_MAX_AGE_SECONDS := 60 * 60 * 24 * 2 |}.

(** ** The world *)

Inductive file_kind : Type := RegularFile | Directory.

(** An entry of [UPLOAD_DIR].  [locked] marks an entry the process may not
    unlink or overwrite ([os.remove] and [open(.., "wb")] raise
    [PermissionError]). *)
Record file : Type := File {
  kind : file_kind;
  mtime : pyfloat;
  data : list byte;
  locked : bool
}.

Inductive event : Type :=
| LogInfo (msg : string)
| LogException (msg : string)
| Slept (secs : Z).

Section App.
Context {I : Imaging} {D : Detector I}.

(** [str(uuid.uuid4())] at the n-th draw of the process. *)
Variable uuid4 : nat -> string.

Variable cfg : config.

(** What the handlers and the cleanup thread read and write.  [upload_dir] is
    [None] when [UPLOAD_DIR] cannot be opened (removed since startup); its
    entries are keyed by file name, [os.path.join(UPLOAD_DIR, name)] being
    the path of the entry [name].  [heap] holds the PIL image objects, an
    object's identity being its index. *)
Record world : Type := World {
  upload_dir : option (gmap string file);
  clock : pyfloat;
  uuid_draws : nat;
  trace : list event;
  heap : list image
}.

Definition set_upload_dir (d : option (gmap string file)) (w : world) : world :=
  {| upload_dir := d; clock := clock w; uuid_draws := uuid_draws w;
     trace := trace w; heap := heap w |}.

Definition set_heap (h : list image) (w : world) : world :=
  {| upload_dir := upload_dir w; clock := clock w; uuid_draws := uuid_draws w;
     trace := trace w; heap := h |}.

Definition emit (ev : event) (w : world) : world :=
  {| upload_dir := upload_dir w; clock := clock w; uuid_draws := uuid_draws w;
     trace := trace w ++ [ev]; heap := heap w |}.

Definition os_path_join (dir name : string) : string := dir +:+ "/" +:+ name.

(** *** logging, time, uuid *)

Definition logger_info (msg : string) : Py world unit := modify (emit (LogInfo msg)).

Definition logger_exception (msg : string) : Py world unit :=
  modify (emit (LogException msg)).

(** [time.time()]: the reading of the clock.  The clock of a world moves
    only in [time_sleep]: the statements between two sleeps are taken to run
    in no time, so that a file written by [predict] is stamped with the time
    at which the handler was entered.  The sweep reads the clock once, when
    it starts; the theorems on the sweeper compare that one reading with
    the stamps of the files it finds, whatever they are. *)
Definition time_time : Py world pyfloat := fun w => (Return (clock w), w).

Definition float_of_Z (n : Z) : pyfloat :=
  SF2Prim (binary_normalize prec emax n 0 false).

(** The longest sleep, in seconds: [time.sleep] keeps the length of an int
    number of seconds as a signed 64-bit count of nanoseconds. *)
Definition sleep_max : Z := (2 ^ 63 - 1) / 1000000000.

(** The lengths [time.sleep] takes. *)
Definition sleep_accepts (secs : Z) : bool := (0 <=? secs) && (secs <=? sleep_max).

(** [time.sleep(secs)] for an int [secs]: [OverflowError] on a length whose
    nanoseconds do not fit in 64 bits, [ValueError] on a negative length;
    otherwise the clock has advanced by [secs] when it returns. *)
Definition time_sleep (secs : Z) : Py world unit := fun w =>
  if (secs <? - sleep_max) || (sleep_max <? secs)
  then (Raise (Exn "OverflowError" "timestamp too large to convert to C _PyTime_t"), w)
  else if secs <? 0
  then (Raise (Exn "ValueError" "sleep length must be non-negative"), w)
  else (Return tt,
        {| upload_dir := upload_dir w; clock := (clock w + float_of_Z secs)%float;
           uuid_draws := uuid_draws w; trace := trace w ++ [Slept secs];
           heap := heap w |}).

Definition uuid_uuid4 : Py world string := fun w =>
  (Return (uuid4 (uuid_draws w)),
   {| upload_dir := upload_dir w; clock := clock w; uuid_draws := S (uuid_draws w);
      trace := trace w; heap := heap w |}).

(** *** os *)

Definition no_such_file (name : string) : exn :=
  Exn "FileNotFoundError" (os_path_join (UPLOAD_DIR cfg) name).

Definition permission_denied (name : string) : exn :=
  Exn "PermissionError" (os_path_join (UPLOAD_DIR cfg) name).

(** [os.listdir(UPLOAD_DIR)]: the names, in the order the map lists them. *)
Definition os_listdir : Py world (list string) := fun w =>
  match upload_dir w with
  | Some d => (Return ((map_to_list d).*1), w)
  | None => (Raise (Exn "FileNotFoundError" (UPLOAD_DIR cfg)), w)
  end.

Definition lookup_entry (name : string) (w : world) : option file :=
  d ← upload_dir w; d !! name.

(** [os.path.isfile]: never raises. *)
Definition os_path_isfile (name : string) : Py world bool := fun w =>
  (Return match lookup_entry name w with
          | Some f => match kind f with RegularFile => true | Directory => false end
          | None => false
          end, w).

Definition os_path_getmtime (name : string) : Py world pyfloat := fun w =>
  match lookup_entry name w with
  | Some f => (Return (mtime f), w)
  | None => (Raise (no_such_file name), w)
  end.

Definition os_remove (name : string) : Py world unit := fun w =>
  match upload_dir w with
  | None => (Raise (no_such_file name), w)
  | Some d =>
      match d !! name with
      | None => (Raise (no_such_file name), w)
      | Some f =>
          match kind f with
          | Directory => (Raise (Exn "IsADirectoryError" (os_path_join (UPLOAD_DIR cfg) name)), w)
          | RegularFile =>
              if locked f then (Raise (permission_denied name), w)
              else (Return tt, set_upload_dir (Some (delete name d)) w)
          end
      end
  end.

(** [open(path, "wb")], write [bytes], close: creates the entry or replaces
    its content; the new entry carries the current time. *)
Definition write_file (name : string) (bytes : list byte) : Py world unit := fun w =>
  let created := {| kind := RegularFile; mtime := clock w; data := bytes; locked := false |} in
  match upload_dir w with
  | None => (Raise (no_such_file name), w)
  | Some d =>
      match d !! name with
      | None => (Return tt, set_upload_dir (Some (<[name := created]> d)) w)
      | Some f =>
          match kind f with
          | Directory => (Raise (Exn "IsADirectoryError" (os_path_join (UPLOAD_DIR cfg) name)), w)
          | RegularFile =>
              if locked f then (Raise (permission_denied name), w)
              else (Return tt, set_upload_dir (Some (<[name := created]> d)) w)
          end
      end
  end.

(** *** PIL objects *)

(** [Image.open(..).convert("RGB")] returns a new object. *)
Definition new_image (img : image) (w : world) : nat * world :=
  (length (heap w), set_heap (heap w ++ [img]) w).

(** [ImageDraw.Draw(image)] keeps a reference to [image] and draws into it. *)
Record ImageDraw : Type := Draw { target : nat }.

Definition dangling : exn := Exn "ReferenceError" "no such image object".

(** Apply a drawing operation to the object behind [ref], in place. *)
Definition draw_on (ref : nat) (op : image -> outcome image) : Py world unit := fun w =>
  match heap w !! ref with
  | None => (Raise dangling, w)
  | Some img =>
      match op img with
      | Return img' => (Return tt, set_heap (<[ref := img']> (heap w)) w)
      | Raise e => (Raise e, w)
      end
  end.

Definition draw_rectangle (draw : ImageDraw) (xy : list pyfloat) : Py world unit :=
  draw_on (target draw) (fun img => rectangle img xy).

Definition draw_text (draw : ImageDraw) (xy : pyfloat * pyfloat) (s : string)
  : Py world unit :=
  draw_on (target draw) (fun img => text img xy s).

(** [model(image)] reads the object. *)
Definition call_model (ref : nat) : Py world (list (list (list pyfloat))) := fun w =>
  match heap w !! ref with
  | None => (Raise dangling, w)
  | Some img => (model_call img, w)
  end.

(** [image.save(out_path)]: encode the object as it is now, then write. *)
Definition image_save (ref : nat) (name : string) : Py world unit := fun w =>
  match heap w !! ref with
  | None => (Raise dangling, w)
  | Some img =>
      match jpeg_encode img with
      | Return bytes => write_file name bytes w
      | Raise e => (Raise e, w)
      end
  end.

(** ** Requests and responses *)

Record request : Type := Request {
  files : gmap string (list byte);   (* request.files, each with its content *)
  host_url : string                  (* scheme and host the request came to *)
}.

Inductive body : Type :=
| JsonBody (j : json).

Record response : Type := Response { content : body; status : Z }.

(** A view's [return jsonify(j), code].  The body is kept as the value handed
    to [jsonify], a dict as the list of its items in the order of the
    source; the order in which Flask sends the keys is not part of it. *)
Definition jsonify (j : json) (code : Z) : response :=
  {| content := JsonBody j; status := code |}.

(** [url_for("serve_static", filename=filename, _external=True)] for the
    route ["/static/<path:filename>"]. *)
Definition url_for_serve_static (req : request) (filename : string) : string :=
  host_url req +:+ "/static/" +:+ filename.

(** ** [health] *)

Definition health : response := jsonify (JDict [("ok", JBool true)]) 200.

(** ** [predict] *)

(** The locals of [predict] that the drawing loop mutates: the list
    [detections], and through [draw] the world's heap. *)
Record frame : Type := Frame { fr_world : world; detections : list json }.

Definition in_world {A} (m : Py world A) : Py frame A := fun fr =>
  let '(o, w') := m (fr_world fr) in
  (o, {| fr_world := w'; detections := detections fr |}).

Definition detections_append (det : json) : Py frame unit :=
  modify (fun fr => {| fr_world := fr_world fr; detections := detections fr ++ [det] |}).

(** [x_min, y_min, x_max, y_max, conf, cls = box] *)
Definition unpack_box (box : list pyfloat)
  : outcome (pyfloat * pyfloat * pyfloat * pyfloat * pyfloat * pyfloat) :=
  match box with
  | [x_min; y_min; x_max; y_max; conf; cls] => Return (x_min, y_min, x_max, y_max, conf, cls)
  | _ => Raise (Exn "ValueError" "wrong number of values to unpack")
  end.

(** [int(cls)]: truncation toward zero. *)
Definition py_int (x : pyfloat) : outcome Z :=
  match Prim2SF x with
  | S754_zero _ => Return 0
  | S754_finite s m e =>
      let mag := Z.shiftl (Z.pos m) e in
      Return (if s then - mag else mag)
  | S754_infinity _ => Raise (Exn "OverflowError" "cannot convert float infinity to integer")
  | S754_nan => Raise (Exn "ValueError" "cannot convert float NaN to integer")
  end.

(** [model.names[c]] *)
Definition names_getitem (c : Z) : outcome string :=
  match model_names !! c with
  | Some label => Return label
  | None => Raise (Exn "KeyError" (pretty c))
  end.

(** The dict [det] built for one box. *)
Definition det_dict (x_min y_min x_max y_max conf : pyfloat) (c : Z) (label : string)
  : json :=
  JDict [("bbox", JList [JFloat x_min; JFloat y_min; JFloat x_max; JFloat y_max]);
         ("confidence", JFloat conf);
         ("class", JInt c);
         ("label", JStr label)].

(** The body of the inner loop, for one [box]. *)
Definition process_box (draw : ImageDraw) (box : list pyfloat) : Py frame unit :=
  unpacked <- lift (unpack_box box) ;;
  let '(x_min, y_min, x_max, y_max, conf, cls) := unpacked in
  c <- lift (py_int cls) ;;
  label <- lift (names_getitem c) ;;
  detections_append (det_dict x_min y_min x_max y_max conf c label) ;;
  in_world (draw_rectangle draw [x_min; y_min; x_max; y_max]) ;;
  in_world (draw_text draw (x_min, y_min) (label +:+ " " +:+ format_2f conf)).

(** [for result in results: for box in result.boxes.data.tolist(): ...] *)
Definition process_results (draw : ImageDraw) (results : list (list (list pyfloat)))
  : Py frame unit :=
  for_each results (fun result => for_each result (process_box draw)).

(** The block "Draw bounding boxes and collect detections" of [predict], on
    the image object [image_ref]: the loop under its [try], the handler that
    logs and goes on, and the list [detections] it leaves. *)
Definition annotate (image_ref : nat) (results : list (list (list pyfloat)))
  (w : world) : list json * world :=
  let draw := Draw image_ref in
  let '(_, fr) :=
    try_except (process_results draw results)
      (fun _ => in_world (logger_exception "Failed while parsing/drawing results"))
      {| fr_world := w; detections := [] |} in
  (detections fr, fr_world fr).

(** The block "Save annotated image with unique filename": the file name it
    chose, or what [image.save] raised. *)
Definition save_annotated (image_ref : nat) : Py world string :=
  u <- uuid_uuid4 ;;
  let filename := u +:+ ".jpg" in
  image_save image_ref filename ;;
  ret filename.

Definition predict (req : request) (w : world) : response * world :=
  match files req !! "image" with
  | None => (jsonify (JDict [("error", JStr "No image provided to API")]) 400, w)
  | Some upload =>
      match image_open upload with
      | Raise _ =>
          (jsonify (JDict [("error", JStr "Invalid image")]) 400,
           emit (LogException "Invalid image uploaded") w)
      | Return decoded =>
          let '(image_ref, w) := new_image decoded w in
          match call_model image_ref w with
          | (Raise e, w) =>
              (jsonify (JDict [("error", JStr "Model inference failed");
                               ("detail", JStr (exn_str e))]) 500,
               emit (LogException "Model inference failed") w)
          | (Return results, w) =>
              let '(detections, w) := annotate image_ref results w in
              match save_annotated image_ref w with
              | (Raise _, w) =>
                  (jsonify (JDict [("error", JStr "Failed to save image")]) 500,
                   emit (LogException "Failed to save annotated image") w)
              | (Return filename, w) =>
                  let image_url := url_for_serve_static req filename in
                  (jsonify (JDict [("detections", JList detections);
                                   ("image_url", JStr image_url)]) 200, w)
              end
          end
      end
  end.

(** ** [serve_static]

    [serve_static(filename)] returns [send_from_directory(UPLOAD_DIR,
    filename)] and is registered under ["/static/<path:filename>"].  It is
    not embedded: [Flask(__name__)] has registered its own static endpoint
    under that very rule before, over the folder [static] of the
    application's root, and [send_from_directory] resolves a relative
    [UPLOAD_DIR] against the application's root where [image.save] and
    [os.listdir] resolve it against the working directory.  Which directory
    a [GET /static/<name>] reads is thus decided inside Flask, not in
    [app.py]; the world here has the one directory that [predict] writes
    and [cleanup_worker] sweeps. *)

(** ** [cleanup_worker] *)

(** The body of the [for fname in os.listdir(UPLOAD_DIR)] loop; [removed] is
    the local counter, returned as the loop leaves it. *)
Definition sweep_entry (now : pyfloat) (removed : Z) (fname : string) : Py world Z :=
  isfile <- os_path_isfile fname ;;
  if negb isfile then ret removed
  else
    mt <- os_path_getmtime fname ;;
    let age := (now - mt)%float in
    if float_gt_int age (FILE_MAX_AGE_SECONDS cfg) then
      try_except
        (os_remove fname ;; ret (removed + 1))
        (fun _ =>
           logger_exception ("Failed to remove file: " +:+ os_path_join (UPLOAD_DIR cfg) fname) ;;
           ret removed)
    else ret removed.

(** The statements under the outer [try] of one iteration of [while True]. *)
Definition sweep : Py world unit :=
  now <- time_time ;;
  names <- os_listdir ;;
  removed <- for_fold names 0 (sweep_entry now) ;;
  if removed =? 0 then ret tt
  else logger_info ("Cleanup removed " +:+ pretty removed +:+ " files").

(** One iteration of [while True]: the guarded sweep, then the sleep. *)
Definition sweep_cycle : Py world unit :=
  try_except sweep (fun _ => logger_exception "Cleanup worker error") ;;
  time_sleep (CLEANUP_INTERVAL_SECONDS cfg).

(** The first [cycles] iterations of [while True]. *)
Fixpoint sweep_loop (cycles : nat) : Py world unit :=
  match cycles with
  | O => ret tt
  | S n => sweep_cycle ;; sweep_loop n
  end.

(** [cleanup_worker], cut after [cycles] iterations of its loop. *)
Definition cleanup_worker (cycles : nat) : Py world unit :=
  logger_info ("Cleanup worker started. interval=" +:+ pretty (CLEANUP_INTERVAL_SECONDS cfg)
               +:+ " seconds, max_age=" +:+ pretty (FILE_MAX_AGE_SECONDS cfg) +:+ " seconds") ;;
  sweep_loop cycles.

(** ** Vocabulary of the statements below *)

(** The age test of [sweep_entry], for an entry [f] looked at at time [now]. *)
Definition expired (now : pyfloat) (f : file) : bool :=
  float_gt_int (now - mtime f)%float (FILE_MAX_AGE_SECONDS cfg).

(** The entries that a sweep started at [now] unlinks: regular files that
    are expired and that [os.remove] can unlink. *)
Definition swept (now : pyfloat) (f : file) : bool :=
  match kind f with
  | RegularFile => expired now f && negb (locked f)
  | Directory => false
  end.

(** The entries whose removal a sweep started at [now] attempts in vain. *)
Definition stuck (now : pyfloat) (f : file) : bool :=
  match kind f with
  | RegularFile => expired now f && locked f
  | Directory => false
  end.

(** The record [sweep_entry] logs when [os.remove] raises on [name]. *)
Definition remove_failed (name : string) : event :=
  LogException ("Failed to remove file: " +:+ os_path_join (UPLOAD_DIR cfg) name).

(** The dict the loop appends for [box], when it gets as far as building it. *)
Definition box_entry (box : list pyfloat) : option json :=
  match unpack_box box with
  | Raise _ => None
  | Return (x_min, y_min, x_max, y_max, conf, cls) =>
      match py_int cls with
      | Raise _ => None
      | Return c =>
          match names_getitem c with
          | Raise _ => None
          | Return label => Some (det_dict x_min y_min x_max y_max conf c label)
          end
      end
  end.

(** One box replayed on the pixels alone: the image after it, what the list
    [detections] gains, and whether the loop goes on ([false] when the box
    raised, at its unpacking, its class, its label, its rectangle or its
    text). *)
Definition replay_box (img : image) (box : list pyfloat) : image * list json * bool :=
  match unpack_box box with
  | Raise _ => (img, [], false)
  | Return (x_min, y_min, x_max, y_max, conf, cls) =>
      match py_int cls with
      | Raise _ => (img, [], false)
      | Return c =>
          match names_getitem c with
          | Raise _ => (img, [], false)
          | Return label =>
              let det := det_dict x_min y_min x_max y_max conf c label in
              match rectangle img [x_min; y_min; x_max; y_max] with
              | Raise _ => (img, [det], false)
              | Return img1 =>
                  match text img1 (x_min, y_min) (label +:+ " " +:+ format_2f conf) with
                  | Raise _ => (img1, [det], false)
                  | Return img2 => (img2, [det], true)
                  end
              end
          end
      end
  end.

(** The boxes replayed in order, up to the first that raises. *)
Fixpoint replay (img : image) (boxes : list (list pyfloat)) : image * list json * bool :=
  match boxes with
  | [] => (img, [], true)
  | box :: rest =>
      let '(img1, dets1, ok) := replay_box img box in
      if ok then
        let '(img2, dets2, ok2) := replay img1 rest in
        (img2, (dets1 ++ dets2)%list, ok2)
      else (img1, dets1, false)
  end.

(** [predict] as it reaches the save, after decoding to [decoded] and
    getting [results] from the model: the image object, the list
    [detections] and the world. *)
Definition before_save (decoded : image) (results : list (list (list pyfloat)))
  (w : world) : nat * list json * world :=
  let '(image_ref, w1) := new_image decoded w in
  let '(dets, w2) := annotate image_ref results w1 in
  (image_ref, dets, w2).

(** Two worlds that differ in the heap and the trace at most. *)
Definition same_store (w w' : world) : Prop :=
  upload_dir w' = upload_dir w /\ clock w' = clock w /\ uuid_draws w' = uuid_draws w.

(** The requests [reqs] handled by [predict] one after the other. *)
Fixpoint serve (reqs : list request) (w : world) : list response * world :=
  match reqs with
  | [] => ([], w)
  | req :: rest =>
      let '(resp, w1) := predict req w in
      let '(resps, w2) := serve rest w1 in
      (resp :: resps, w2)
  end.

(** How many of the responses are a 200. *)
Definition successes (resps : list response) : nat :=
  length (filter (fun resp => status resp = 200) resps).

(** The lengths of the sleeps recorded in a trace, oldest first. *)
Fixpoint sleeps (tr : list event) : list Z :=
  match tr with
  | [] => []
  | Slept secs :: rest => secs :: sleeps rest
  | _ :: rest => sleeps rest
  end.

End App.

(** ** A stand-in for Pillow and a mocked model, to run the handlers *)

Module Demo.

Inductive stroke : Type :=
| Rect (xy : list pyfloat)
| Label (xy : pyfloat * pyfloat) (s : string).

(** A canvas records the upload it was decoded from and, in order, what was
    drawn on it since. *)
Record canvas : Type := Canvas { payload : list byte; strokes : list stroke }.

Definition is_jpeg (upload : list byte) : bool :=
  match upload with
  | xff :: xd8 :: _ => true
  | _ => false
  end.

Definition open_canvas (upload : list byte) : outcome canvas :=
  if is_jpeg upload then Return {| payload := upload; strokes := [] |}
  else Raise (Exn "UnidentifiedImageError" "cannot identify image file").

(** Pillow refuses a rectangle whose corners are out of order. *)
Definition rect_canvas (c : canvas) (xy : list pyfloat) : outcome canvas :=
  match xy with
  | [x0; y0; x1; y1] =>
      if PrimFloat.ltb x1 x0
      then Raise (Exn "ValueError" "x1 must be greater than or equal to x0")
      else if PrimFloat.ltb y1 y0
      then Raise (Exn "ValueError" "y1 must be greater than or equal to y0")
      else Return {| payload := payload c; strokes := strokes c ++ [Rect xy] |}
  | _ => Raise (Exn "TypeError" "coordinate list must contain exactly 2 coordinates")
  end.

Definition text_canvas (c : canvas) (xy : pyfloat * pyfloat) (s : string)
  : outcome canvas :=
  Return {| payload := payload c; strokes := strokes c ++ [Label xy s] |}.

Definition stroke_mark (st : stroke) : byte :=
  match st with
  | Rect _ => x01
  | Label _ _ => x02
  end.

Definition encode_canvas (c : canvas) : outcome (list byte) :=
  Return (payload c ++ map stroke_mark (strokes c))%list.

#[export] Instance pillow : Imaging :=
  {| image := canvas;
     image_open := open_canvas;
     rectangle := rect_canvas;
     text := text_canvas;
     jpeg_encode := encode_canvas |}.

(** A model mocked to give [out] on every image, with one class. *)
Definition mock (out : outcome (list (list (list pyfloat)))) : Detector pillow :=
  {| model_call := fun _ => out; model_names := {[ 0 := "aphid" ]} |}.

Definition uuid4 (n : nat) : string := "3f2b8c1e-0000-4000-8000-" +:+ pretty n.

Definition jpeg_upload : list byte := [xff; xd8; xff; xe0].

Definition post (upload : list byte) : request :=
  {| files := {[ "image" := upload ]}; host_url := "http://localhost:5000" |}.

(** An empty upload directory at time 0, nothing logged, no object yet. *)
Definition fresh_world : world :=
  {| upload_dir := Some ∅; clock := 0%float; uuid_draws := 0%nat; trace := []; heap := [] |}.

(** The decoded upload, nothing drawn on it, and a world whose heap holds it
    as object 0. *)
Definition blank : canvas := {| payload := jpeg_upload; strokes := [] |}.

Definition decoded_world : world :=
  {| upload_dir := Some ∅; clock := 0%float; uuid_draws := 0%nat; trace := [];
     heap := [blank] |}.

(** The world after the spec's scenario: the artifact in the directory, the
    decoded image drawn on in the heap. *)
Definition served_world : world :=
  {| upload_dir :=
       Some {[ "3f2b8c1e-0000-4000-8000-0.jpg" :=
                 {| kind := RegularFile; mtime := 0;
                    data := [xff; xd8; xff; xe0; x01; x02]; locked := false |} ]};
     clock := 0; uuid_draws := 1; trace := [];
     heap := [ {| payload := jpeg_upload;
                  strokes := [Rect [10; 10; 100; 100]%float;
                              Label (10, 10)%float "aphid 0.92"] |} ] |}.

(** The mocked output of the spec's scenario: one result with one box. *)
Definition one_box : list (list (list pyfloat)) :=
  [[ [10; 10; 100; 100; 0.92; 0]%float ]].

(** Two boxes, the first with its corners out of order. *)
Definition two_boxes : list (list (list pyfloat)) :=
  [[ [100; 10; 10; 100; 0.92; 0]%float; [20; 20; 50; 50; 0.8; 0]%float ]].

(** The upload directory as the sweeper may find it at time 200000, more
    than [FILE_MAX_AGE_SECONDS] = 172800 after three of its entries were
    written: a file it can unlink, a file it cannot, and a subdirectory. *)
Definition entry (k : file_kind) (t : pyfloat) (l : bool) : file :=
  {| kind := k; mtime := t; data := jpeg_upload; locked := l |}.

Definition aged_dir : gmap string file :=
  <[ "old.jpg" := entry RegularFile 0 false ]>
  (<[ "stuck.jpg" := entry RegularFile 0 true ]>
  (<[ "recent.jpg" := entry RegularFile 100000 false ]>
  (<[ "cache" := entry Directory 0 false ]> ∅))).

Definition aged_world : world :=
  {| upload_dir := Some aged_dir; clock := 200000%float; uuid_draws := 0%nat;
     trace := []; heap := [] |}.



End Demo.

(** ** The model at work *)

Example format_2f_rounds :
  format_2f 0.92%float = "0.92" /\ format_2f 0.925%float = "0.93"
  /\ format_2f 0.125%float = "0.12" /\ format_2f 2.675%float = "2.67"
  /\ format_2f (-0.001)%float = "-0.00" /\ format_2f 100%float = "100.00".
Proof. repeat split. Qed.

Example py_int_truncates :
  py_int 3.99%float = Return 3 /\ py_int (-3.99)%float = Return (-3)
  /\ py_int 0%float = Return 0 /\ py_int 1e30%float = Return 1000000000000000019884624838656.
Proof. repeat split. Qed.

Example age_boundary_is_strict :
  float_gt_int 172800%float 172800 = false
  /\ float_le_int 172800%float 172800 = true
  /\ float_gt_int 172800.5%float 172800 = true
  /\ float_gt_int nan 172800 = false /\ float_le_int nan 172800 = false.
Proof. repeat split. Qed.

(** The scenario of the spec: one mocked detection, labelled "aphid 0.92" on
    the image, one entry in the response. *)
Example predict_one_detection :
  predict (D := Demo.mock (Return Demo.one_box)) Demo.uuid4 default_config
    (Demo.post Demo.jpeg_upload) Demo.fresh_world
  = (jsonify (JDict [("detections",
                      JList [det_dict 10 10 100 100 0.92 0 "aphid"]);
                     ("image_url",
                      JStr "http://localhost:5000/static/3f2b8c1e-0000-4000-8000-0.jpg")])
       200,
     Demo.served_world).
Proof. reflexivity. Qed.

(** * Properties *)

(** ** Comparisons of a float with an int *)

Lemma float_le_not_gt (x : pyfloat) (n : Z) :
  float_le_int x n = true -> float_gt_int x n = false.
Proof.
  unfold float_le_int, float_gt_int.
  destruct (Prim2SF x) as [s|s| |s m e]; simpl.
  - intros H%Z.leb_le. apply Z.ltb_ge. lia.
  - now intros ->.
  - discriminate.
  - destruct (0 <=? e); intros H%Z.leb_le; apply Z.ltb_ge; lia.
Qed.

(** ** The monad *)

Section MonadFacts.
Context {S : Type}.

Lemma bind_return {A B} (m : Py S A) (k : A -> Py S B) s a s' :
  m s = (Return a, s') -> bind m k s = k a s'.
Proof. unfold bind. now intros ->. Qed.


Lemma for_each_app {X} (xs ys : list X) (body : X -> Py S unit) s :
  for_each (xs ++ ys) body s = bind (for_each xs body) (fun _ => for_each ys body) s.
Proof.
  revert s. induction xs as [|x xs IH]; intros s; simpl; trivial.
  unfold bind in *. destruct (body x s) as [[[]|e] s1]; auto.
Qed.

(** Two nested loops run the inner body over the concatenation. *)
Lemma for_each_concat {X} (xss : list (list X)) (body : X -> Py S unit) s :
  for_each xss (fun xs => for_each xs body) s = for_each (concat xss) body s.
Proof.
  revert s. induction xss as [|xs xss IH]; intros s; simpl; trivial.
  rewrite for_each_app. unfold bind.
  destruct (for_each xs body s) as [[[]|e] s1]; trivial.
Qed.

End MonadFacts.

(** ** The cleanup thread *)

Lemma sleeps_app (tr1 tr2 : list event) :
  sleeps (tr1 ++ tr2) = (sleeps tr1 ++ sleeps tr2)%list.
Proof.
  induction tr1 as [|[] tr1 IH]; simpl; trivial. now rewrite IH.
Qed.

Section Sweeper.
Context {I : Imaging}.
Variable cfg : config.

Implicit Types (w : world) (d : gmap string file) (f : file).

Lemma lookup_entry_Some w d name :
  upload_dir w = Some d -> lookup_entry name w = d !! name.
Proof. unfold lookup_entry. now intros ->. Qed.

(** What [sweep_entry] does, case by case on the entry: it never raises, it
    unlinks the entry or leaves the directory alone, and it logs a removal
    that failed. *)
Lemma sweep_entry_step now removed name w d :
  upload_dir w = Some d ->
  exists removed' w' evs,
    sweep_entry cfg now removed name w = (Return removed', w')
    /\ clock w' = clock w
    /\ trace w' = (trace w ++ evs)%list
    /\ sleeps evs = []
    /\ upload_dir w' =
         Some (match d !! name with
               | Some f => if swept cfg now f then delete name d else d
               | None => d
               end)
    /\ (forall f, d !! name = Some f -> stuck cfg now f = true ->
         remove_failed cfg name ∈ evs).
Proof.
  intros Hd. unfold sweep_entry, os_path_isfile, os_path_getmtime.
  unfold bind at 1. rewrite (lookup_entry_Some _ _ _ Hd).
  assert (Hsame : exists removed' w' evs,
    (Return removed, w) = (Return removed', w') /\ clock w' = clock w
    /\ trace w' = (trace w ++ evs)%list /\ sleeps evs = []
    /\ upload_dir w' = Some d).
  { exists removed, w, []. now rewrite app_nil_r. }
  destruct Hsame as (r0 & w0 & evs0 & Hsame).
  destruct (d !! name) as [f|] eqn:Hf; simpl.
  2:{ exists r0, w0, evs0. intuition discriminate. }
  unfold swept, stuck, expired. destruct (kind f) eqn:Hk; simpl.
  2:{ exists r0, w0, evs0. intuition; simplify_eq; rewrite Hk in *; discriminate. }
  unfold bind at 1. rewrite (lookup_entry_Some _ _ _ Hd), Hf.
  destruct (float_gt_int _ _) eqn:Hage; simpl.
  2:{ exists r0, w0, evs0. intuition; simplify_eq.
      rewrite Hk, Hage in *; discriminate. }
  clear Hsame.
  unfold try_except, bind, os_remove. rewrite Hd, Hf, Hk.
  destruct (locked f) eqn:Hl; simpl.
  - eexists _, _, [remove_failed cfg name]. split; [reflexivity|]. simpl.
    rewrite Hd. repeat split; trivial. intros. apply list_elem_of_singleton. reflexivity.
  - eexists _, _, []. split; [reflexivity|]. simpl.
    rewrite app_nil_r. repeat split; trivial.
    intros f' ?. simplify_eq. rewrite Hk, Hage, Hl. discriminate.
Qed.

(** The survivors of a pass over the names [names]: an entry is gone when
    its name was visited and the sweep unlinks it; nothing else changes, and
    every removal that failed on the way is in the log. *)
Lemma sweep_names_spec now names : forall removed w d,
  upload_dir w = Some d ->
  exists removed' w' d' evs,
    for_fold names removed (sweep_entry cfg now) w = (Return removed', w')
    /\ clock w' = clock w
    /\ trace w' = (trace w ++ evs)%list
    /\ sleeps evs = []
    /\ upload_dir w' = Some d'
    /\ (forall k,
         d' !! k = match d !! k with
                   | Some f =>
                       if bool_decide (k ∈ names) && swept cfg now f then None else Some f
                   | None => None
                   end)
    /\ (forall k f, k ∈ names -> d !! k = Some f -> stuck cfg now f = true ->
         remove_failed cfg k ∈ evs).
Proof.
  induction names as [|name names IH]; intros removed w d Hd; simpl.
  - exists removed, w, d, []. rewrite app_nil_r. repeat split; trivial.
    + intros k. now destruct (d !! k).
    + intros k f Hk. now apply elem_of_nil in Hk.
  - destruct (sweep_entry_step now removed name w d Hd)
      as (r1 & w1 & evs1 & Hstep & Hclock1 & Htr1 & Hsl1 & Hd1 & Hlog1).
    rewrite (bind_return _ _ _ _ _ Hstep).
    destruct (IH r1 w1 _ Hd1)
      as (r2 & w2 & d2 & evs2 & Hrun & Hclock2 & Htr2 & Hsl2 & Hd2 & Hlook & Hlog2).
    exists r2, w2, d2, (evs1 ++ evs2)%list. rewrite Hrun.
    split; [reflexivity|]. split; [congruence|].
    split; [rewrite Htr2, Htr1; now rewrite app_assoc|].
    split; [rewrite sleeps_app, Hsl1, Hsl2; reflexivity|].
    split; [assumption|]. split.
    + intros k. rewrite Hlook. clear Hlook.
      destruct (decide (k = name)) as [->|Hne].
      * rewrite (bool_decide_eq_true_2 (name ∈ name :: names))
          by (apply elem_of_cons; now left).
        destruct (d !! name) as [f|] eqn:Hf; [|now rewrite Hf].
        destruct (swept cfg now f) eqn:Hsw.
        -- now rewrite lookup_delete_eq.
        -- rewrite Hf, Hsw. now rewrite andb_false_r.
      * assert (Hmem : bool_decide (k ∈ name :: names) = bool_decide (k ∈ names)).
        { apply bool_decide_ext. rewrite elem_of_cons. tauto. }
        rewrite Hmem.
        destruct (d !! name) as [f|]; trivial.
        destruct (swept cfg now f); trivial. now rewrite lookup_delete_ne.
    + intros k f Hk Hf Hstuck. apply elem_of_app.
      destruct (decide (k = name)) as [->|Hne]; [left; eauto|].
      right. apply elem_of_cons in Hk as [?|Hk]; [done|].
      apply (Hlog2 k f Hk); trivial.
      destruct (d !! name) as [f0|]; trivial.
      destruct (swept cfg now f0); trivial. now rewrite lookup_delete_ne.
Qed.

(** Every name of the directory is listed. *)
Lemma listed_names d k : k ∈ (map_to_list d).*1 <-> is_Some (d !! k).
Proof.
  rewrite list_elem_of_fmap. split.
  - intros ([k' f] & -> & Hin). apply elem_of_map_to_list in Hin. now exists f.
  - intros [f Hf]. exists (k, f). split; trivial. now apply elem_of_map_to_list.
Qed.

(** The statements under the outer [try], when the directory can be
    listed: they do not raise; the entries the sweep unlinks are gone and
    the others are as they were; every removal that failed is in the log. *)
Lemma sweep_spec w d :
  upload_dir w = Some d ->
  exists w' evs,
    sweep cfg w = (Return tt, w')
    /\ clock w' = clock w
    /\ trace w' = (trace w ++ evs)%list
    /\ sleeps evs = []
    /\ upload_dir w' = Some (filter (fun kf => swept cfg (clock w) kf.2 = false) d)
    /\ (forall k f, d !! k = Some f -> stuck cfg (clock w) f = true ->
         remove_failed cfg k ∈ evs).
Proof.
  intros Hd. unfold sweep, time_time, os_listdir.
  unfold bind at 1. unfold bind at 1. rewrite Hd.
  destruct (sweep_names_spec (clock w) ((map_to_list d).*1) 0 w d Hd)
    as (r & w1 & d1 & evs & Hrun & Hclock & Htr & Hsl & Hd1 & Hlook & Hlog).
  rewrite (bind_return _ _ _ _ _ Hrun).
  assert (Hd1' : d1 = filter (fun kf => swept cfg (clock w) kf.2 = false) d).
  { apply map_eq. intros k. rewrite Hlook, map_lookup_filter.
    destruct (d !! k) as [f|] eqn:Hf; simpl; trivial.
    rewrite (bool_decide_eq_true_2 (k ∈ (map_to_list d).*1))
      by (apply listed_names; eauto).
    simpl. destruct (swept cfg (clock w) f) eqn:Hsw.
    - now rewrite option_guard_False.
    - now rewrite option_guard_True. }
  subst d1.
  assert (Hlog' : forall k f, d !! k = Some f -> stuck cfg (clock w) f = true ->
                  remove_failed cfg k ∈ evs).
  { intros k f Hf. apply Hlog; trivial. apply listed_names; eauto. }
  destruct (r =? 0).
  - exists w1, evs. auto 10.
  - eexists _, (evs ++ [_])%list. split; [reflexivity|]. simpl.
    rewrite Htr, sleeps_app, Hsl, app_assoc. repeat split; trivial.
    intros k f Hf Hst. apply elem_of_app. left. eauto.
Qed.

(** The guarded sweep never raises.  With a directory that can be listed it
    is the sweep; otherwise the failure is logged and nothing else changes. *)
Lemma guarded_sweep_spec w :
  exists w1 evs,
    try_except (sweep cfg) (fun _ => logger_exception "Cleanup worker error") w
      = (Return tt, w1)
    /\ clock w1 = clock w
    /\ trace w1 = (trace w ++ evs)%list
    /\ sleeps evs = []
    /\ match upload_dir w with
       | Some d =>
           upload_dir w1 = Some (filter (fun kf => swept cfg (clock w) kf.2 = false) d)
           /\ (forall k f, d !! k = Some f -> stuck cfg (clock w) f = true ->
                remove_failed cfg k ∈ evs)
       | None => upload_dir w1 = None /\ evs = [LogException "Cleanup worker error"]
       end.
Proof.
  unfold try_except.
  destruct (upload_dir w) as [d|] eqn:Hd.
  - destruct (sweep_spec w d Hd) as (w1 & evs & -> & ? & ? & ? & ? & ?).
    exists w1, evs. auto 10.
  - unfold sweep, time_time, os_listdir, bind. rewrite Hd. simpl.
    eexists _, _. split; [reflexivity|]. simpl. rewrite Hd. auto.
Qed.


Lemma time_sleep_refused secs w :
  sleep_accepts secs = false ->
  exists e, time_sleep secs w = (Raise e, w).
Proof.
  unfold sleep_accepts, time_sleep. intros Hno.
  destruct ((secs <? - sleep_max) || (sleep_max <? secs)) eqn:Hover; [eauto|].
  apply orb_false_iff in Hover as [_ Hmax]. apply Z.ltb_ge in Hmax.
  destruct (secs <? 0) eqn:Hneg; [eauto|].
  apply Z.ltb_ge in Hneg. apply andb_false_iff in Hno as [H|H];
    apply Z.leb_gt in H; lia.
Qed.

Lemma time_sleep_dir secs w : upload_dir (time_sleep secs w).2 = upload_dir w.
Proof. unfold time_sleep. now destruct (_ || _), (secs <? 0). Qed.

Lemma time_sleep_trace secs w ev : ev ∈ trace w -> ev ∈ trace (time_sleep secs w).2.
Proof.
  intros Hev. unfold time_sleep. destruct (_ || _), (secs <? 0); simpl; trivial;
    apply elem_of_app; now left.
Qed.

(** One iteration of the loop is the guarded sweep followed by the sleep;
    the sleep leaves the directory alone. *)
Lemma sweep_cycle_spec w :
  exists w1 evs,
    try_except (sweep cfg) (fun _ => logger_exception "Cleanup worker error") w
      = (Return tt, w1)
    /\ sweep_cycle cfg w = time_sleep (CLEANUP_INTERVAL_SECONDS cfg) w1
    /\ upload_dir (sweep_cycle cfg w).2 = upload_dir w1
    /\ trace w1 = (trace w ++ evs)%list
    /\ sleeps evs = []
    /\ (forall ev, ev ∈ evs -> ev ∈ trace (sweep_cycle cfg w).2)
    /\ match upload_dir w with
       | Some d =>
           upload_dir w1 = Some (filter (fun kf => swept cfg (clock w) kf.2 = false) d)
           /\ (forall k f, d !! k = Some f -> stuck cfg (clock w) f = true ->
                remove_failed cfg k ∈ evs)
       | None => upload_dir w1 = None /\ evs = [LogException "Cleanup worker error"]
       end.
Proof.
  destruct (guarded_sweep_spec w) as (w1 & evs & Hrun & Hclock & Htr & Hsl & Hdir).
  exists w1, evs.
  assert (Hcycle : sweep_cycle cfg w = time_sleep (CLEANUP_INTERVAL_SECONDS cfg) w1).
  { unfold sweep_cycle. now rewrite (bind_return _ _ _ _ _ Hrun). }
  rewrite Hcycle. repeat split; trivial.
  - apply time_sleep_dir.
  - intros ev Hev. apply time_sleep_trace. rewrite Htr. apply elem_of_app. now right.
Qed.

(** The directory after one iteration. *)
Lemma sweep_cycle_lookup w name f :
  lookup_entry name w = Some f ->
  lookup_entry name (sweep_cycle cfg w).2
  = if swept cfg (clock w) f then None else Some f.
Proof.
  intros Hf. unfold lookup_entry in Hf.
  destruct (upload_dir w) as [d|] eqn:Hd; [simpl in Hf|discriminate].
  destruct (sweep_cycle_spec w) as (w1 & evs & _ & _ & Hdir & _ & _ & _ & Hspec).
  rewrite Hd in Hspec. destruct Hspec as [Hd1 _].
  unfold lookup_entry. rewrite Hdir, Hd1. simpl.
  rewrite map_lookup_filter, Hf. simpl.
  destruct (swept cfg (clock w) f).
  - now rewrite option_guard_False.
  - now rewrite option_guard_True.
Qed.


(** With a length that [time.sleep] refuses, the first iteration ends the
    loop, after its sweep. *)
Lemma sweep_cycle_raises w :
  sleep_accepts (CLEANUP_INTERVAL_SECONDS cfg) = false ->
  exists e w', sweep_cycle cfg w = (Raise e, w').
Proof.
  intros Hno.
  destruct (sweep_cycle_spec w) as (w1 & evs & _ & -> & _).
  destruct (time_sleep_refused _ w1 Hno) as [e ->]. eauto.
Qed.


(** C5 (as amended).  After one sweep cycle, a regular file whose age
    ([now - mtime], [now] read when the sweep starts) strictly exceeds
    [FILE_MAX_AGE_SECONDS] is absent when [os.remove] could unlink it, and
    is still there when the removal failed; an entry whose age is at most
    [FILE_MAX_AGE_SECONDS] is still present, unchanged. *)
Theorem sweep_cycle_eviction w name f :
  lookup_entry name w = Some f ->
  (kind f = RegularFile ->
   float_gt_int (clock w - mtime f)%float (FILE_MAX_AGE_SECONDS cfg) = true ->
   lookup_entry name (sweep_cycle cfg w).2 = if locked f then Some f else None)
  /\ (float_le_int (clock w - mtime f)%float (FILE_MAX_AGE_SECONDS cfg) = true ->
      lookup_entry name (sweep_cycle cfg w).2 = Some f).
Proof.
  intros Hf. rewrite (sweep_cycle_lookup w name f Hf).
  unfold swept, expired. split.
  - intros -> ->. simpl. now destruct (locked f).
  - intros Hle%float_le_not_gt. rewrite Hle. now destruct (kind f).
Qed.


(** C10.  The sweeper removes regular files only: an entry of the directory
    that is not a regular file is still there, unchanged, after a sweep
    cycle, whatever its age. *)
Theorem sweep_cycle_skips_non_files w name f :
  lookup_entry name w = Some f ->
  kind f <> RegularFile ->
  lookup_entry name (sweep_cycle cfg w).2 = Some f.
Proof.
  intros Hf Hkind. rewrite (sweep_cycle_lookup w name f Hf).
  unfold swept. now destruct (kind f).
Qed.

End Sweeper.

(** ** The prediction pipeline *)

Section Annotation.
Context {I : Imaging} {D : Detector I}.

Implicit Types (w : world) (fr : frame) (img : image).

(** One box: the frame after it is the frame before it with the replayed
    image in the object [ref] and the replayed entries appended to
    [detections]; it returns when the replay says so. *)
Lemma process_box_spec ref box fr img :
  heap (fr_world fr) !! ref = Some img ->
  exists o fr',
    process_box (Draw ref) box fr = (o, fr')
    /\ (let '(img', dets, ok) := replay_box img box in
        heap (fr_world fr') = <[ref := img']> (heap (fr_world fr))
        /\ detections fr' = (detections fr ++ dets)%list
        /\ (if ok then o = Return tt else exists e, o = Raise e))
    /\ same_store (fr_world fr) (fr_world fr')
    /\ trace (fr_world fr') = trace (fr_world fr).
Proof.
  intros Himg. unfold process_box, replay_box, same_store.
  assert (Hid : heap (fr_world fr) = <[ref := img]> (heap (fr_world fr)))
    by (symmetry; now apply list_insert_id).
  unfold bind at 1, lift.
  destruct (unpack_box box) as [[[[[[x_min y_min] x_max] y_max] conf] cls]|e].
  2:{ eexists _, _. split; [reflexivity|]. rewrite app_nil_r. eauto 10. }
  unfold bind at 1.
  destruct (py_int cls) as [c|e].
  2:{ eexists _, _. split; [reflexivity|]. rewrite app_nil_r. eauto 10. }
  unfold bind at 1.
  destruct (names_getitem c) as [label|e].
  2:{ eexists _, _. split; [reflexivity|]. rewrite app_nil_r. eauto 10. }
  unfold bind at 1, detections_append, modify.
  unfold bind at 1, in_world, draw_rectangle, draw_on. simpl. rewrite Himg.
  destruct (rectangle img _) as [img1|e].
  2:{ eexists _, _. split; [reflexivity|]. simpl. eauto 10. }
  unfold draw_text, draw_on. simpl.
  rewrite list_lookup_insert_eq by (now apply lookup_lt_Some in Himg).
  destruct (text img1 _ _) as [img2|e].
  - eexists _, _. split; [reflexivity|]. simpl. rewrite list_insert_insert_eq. auto 10.
  - eexists _, _. split; [reflexivity|]. simpl. eauto 10.
Qed.

(** The loop over the boxes is their replay. *)
Lemma process_boxes_spec ref boxes : forall fr img,
  heap (fr_world fr) !! ref = Some img ->
  exists o fr',
    for_each boxes (process_box (Draw ref)) fr = (o, fr')
    /\ (let '(img', dets, ok) := replay img boxes in
        heap (fr_world fr') = <[ref := img']> (heap (fr_world fr))
        /\ detections fr' = (detections fr ++ dets)%list
        /\ (if ok then o = Return tt else exists e, o = Raise e))
    /\ same_store (fr_world fr) (fr_world fr')
    /\ trace (fr_world fr') = trace (fr_world fr).
Proof.
  induction boxes as [|box boxes IH]; intros fr img Himg; simpl.
  - exists (Return tt), fr. split; [reflexivity|].
    rewrite app_nil_r, list_insert_id by assumption. unfold same_store. auto 10.
  - destruct (process_box_spec ref box fr img Himg)
      as (o1 & fr1 & Hbox & Hreplay & Hstore1 & Htr1).
    unfold bind. rewrite Hbox.
    destruct (replay_box img box) as [[img1 dets1] ok1].
    destruct Hreplay as (Hheap1 & Hdets1 & Ho1).
    destruct ok1.
    + subst o1.
      assert (Himg1 : heap (fr_world fr1) !! ref = Some img1).
      { rewrite Hheap1. apply list_lookup_insert_eq. now apply lookup_lt_Some in Himg. }
      destruct (IH fr1 img1 Himg1) as (o2 & fr2 & Hrest & Hreplay2 & Hstore2 & Htr2).
      exists o2, fr2. split; [assumption|].
      destruct (replay img1 boxes) as [[img2 dets2] ok2].
      destruct Hreplay2 as (Hheap2 & Hdets2 & Ho2).
      split; [|split].
      * rewrite Hheap2, Hheap1, list_insert_insert_eq, Hdets2, Hdets1, app_assoc. auto.
      * unfold same_store in *. intuition congruence.
      * congruence.
    + destruct Ho1 as [e ->]. exists (Raise e), fr1. eauto 10.
Qed.

(** The block "Draw bounding boxes and collect detections" is the replay of
    all the boxes, in the model's order, on the object [ref] itself: the
    object ends with the replayed pixels, [detections] with the replayed
    entries, and a box that raised is logged. *)
Lemma annotate_spec ref results w img :
  heap w !! ref = Some img ->
  exists w',
    annotate ref results w = ((replay img (concat results)).1.2, w')
    /\ heap w' = <[ref := (replay img (concat results)).1.1]> (heap w)
    /\ same_store w w'
    /\ trace w' = (trace w ++ if (replay img (concat results)).2 then []
                              else [LogException "Failed while parsing/drawing results"])%list.
Proof.
  intros Himg. unfold annotate, process_results, try_except.
  rewrite for_each_concat.
  destruct (process_boxes_spec ref (concat results)
              {| fr_world := w; detections := [] |} img Himg)
    as (o & fr' & -> & Hreplay & Hstore & Htr).
  destruct (replay img (concat results)) as [[img' dets] ok]. simpl in *.
  destruct Hreplay as (Hheap & Hdets & Ho).
  destruct ok.
  - subst o. exists (fr_world fr'). rewrite app_nil_r. now rewrite Hdets.
  - destruct Ho as [e ->]. unfold in_world, logger_exception, modify. simpl.
    eexists. split; [now rewrite Hdets|]. simpl. rewrite Htr. auto.
Qed.

(** The object [new_image] returns holds the decoded image. *)
Lemma new_image_lookup decoded w :
  heap (new_image decoded w).2 !! (new_image decoded w).1 = Some decoded.
Proof. simpl. apply list_lookup_middle. reflexivity. Qed.

Lemma call_model_new decoded w :
  call_model (new_image decoded w).1 (new_image decoded w).2
  = (model_call decoded, (new_image decoded w).2).
Proof. unfold call_model. now rewrite new_image_lookup. Qed.

(** [predict] reaches the save with one more object in the heap than it
    started with: the decoded image, drawn on since; and with the replayed
    entries in [detections]. *)
Lemma before_save_spec decoded results w :
  exists w2,
    before_save decoded results w
    = (length (heap w), (replay decoded (concat results)).1.2, w2)
    /\ heap w2 = (heap w ++ [(replay decoded (concat results)).1.1])%list
    /\ same_store w w2
    /\ trace w2 = (trace w ++ if (replay decoded (concat results)).2 then []
                              else [LogException "Failed while parsing/drawing results"])%list.
Proof.
  unfold before_save.
  pose proof (new_image_lookup decoded w) as Hnew.
  destruct (new_image decoded w) as [image_ref w1] eqn:Hw1.
  unfold new_image in Hw1. injection Hw1 as <- <-. simpl in Hnew.
  destruct (annotate_spec (length (heap w)) results
              (set_heap (heap w ++ [decoded]) w) decoded Hnew)
    as (w2 & -> & Hheap & Hstore & Htr).
  exists w2. split; [reflexivity|]. split; [|split; assumption].
  rewrite Hheap. simpl. rewrite insert_app_r_alt, Nat.sub_diag by lia. reflexivity.
Qed.

(** What one box adds to [detections]: nothing when it raised before its
    dict was built, its dict otherwise. *)
Lemma replay_box_entries img box :
  ((replay_box img box).1.2 = [] /\ (replay_box img box).2 = false)
  \/ (exists det, box_entry box = Some det /\ (replay_box img box).1.2 = [det]).
Proof.
  unfold replay_box, box_entry.
  destruct (unpack_box box) as [[[[[[x_min y_min] x_max] y_max] conf] cls]|e]; auto.
  destruct (py_int cls) as [c|e]; auto.
  destruct (names_getitem c) as [label|e]; auto.
  right. eexists. split; [reflexivity|].
  destruct (rectangle img _) as [img1|e]; trivial.
  destruct (text img1 _ _) as [img2|e]; trivial.
Qed.

(** The replayed entries are, one for one and in order, the dicts of the
    first boxes; of all the boxes when none raised. *)
Lemma replay_entries img boxes :
  Forall2 (fun box det => box_entry box = Some det)
    (take (length (replay img boxes).1.2) boxes) (replay img boxes).1.2
  /\ ((replay img boxes).2 = true -> length (replay img boxes).1.2 = length boxes).
Proof.
  revert img. induction boxes as [|box boxes IH]; intros img; simpl.
  - split; [constructor|reflexivity].
  - destruct (replay_box_entries img box) as [[Hnil Hko] | (det & Hentry & Hdet)];
      destruct (replay_box img box) as [[img1 dets1] ok1]; simpl in *; subst.
    + split; [constructor|discriminate].
    + destruct ok1; simpl.
      * specialize (IH img1).
        destruct (replay img1 boxes) as [[img2 dets2] ok2]. simpl in *.
        destruct IH as [Hall Hlen]. split.
        -- now constructor.
        -- intros Hok. now rewrite Hlen.
      * split; [|discriminate]. rewrite take_0. repeat constructor. assumption.
Qed.

(** C3 (as amended).  The annotation step draws in place, on the image
    object it is given and not on a copy: after it the object holds the
    image with what was drawn, and the heap has no other new or changed
    object; so [predict] reaches the save with a single object for the
    request, the decoded image drawn on, which is the one it saves. *)
Theorem annotate_draws_in_place ref results w img :
  heap w !! ref = Some img ->
  heap (annotate ref results w).2 = <[ref := (replay img (concat results)).1.1]> (heap w)
  /\ length (heap (annotate ref results w).2) = length (heap w)
  /\ (forall decoded w0,
        (before_save decoded results w0).1.1 = length (heap w0)
        /\ heap (before_save decoded results w0).2
           = (heap w0 ++ [(replay decoded (concat results)).1.1])%list).
Proof.
  intros Himg.
  destruct (annotate_spec ref results w img Himg) as (w' & -> & Hheap & _).
  simpl. rewrite Hheap, length_insert. repeat split; trivial;
    destruct (before_save_spec decoded results w0) as (w2 & -> & Hheap2 & _); trivial.
Qed.

End Annotation.

Section Pipeline.
Context {I : Imaging} {D : Detector I}.
Variable uuid4 : nat -> string.
Variable cfg : config.

Implicit Types (w : world) (img : image).

(** [predict], stage by stage. *)
Lemma predict_stages req w :
  predict uuid4 cfg req w =
  match files req !! "image" with
  | None => (jsonify (JDict [("error", JStr "No image provided to API")]) 400, w)
  | Some upload =>
      match image_open upload with
      | Raise _ =>
          (jsonify (JDict [("error", JStr "Invalid image")]) 400,
           emit (LogException "Invalid image uploaded") w)
      | Return decoded =>
          match model_call decoded with
          | Raise e =>
              (jsonify (JDict [("error", JStr "Model inference failed");
                               ("detail", JStr (exn_str e))]) 500,
               emit (LogException "Model inference failed") (new_image decoded w).2)
          | Return results =>
              let '(image_ref, dets, w2) := before_save decoded results w in
              match save_annotated uuid4 cfg image_ref w2 with
              | (Raise _, w3) =>
                  (jsonify (JDict [("error", JStr "Failed to save image")]) 500,
                   emit (LogException "Failed to save annotated image") w3)
              | (Return filename, w3) =>
                  (jsonify (JDict [("detections", JList dets);
                                   ("image_url", JStr (url_for_serve_static req filename))])
                     200, w3)
              end
          end
      end
  end.
Proof.
  unfold predict, before_save.
  destruct (files req !! "image") as [upload|]; trivial.
  destruct (image_open upload) as [decoded|e]; trivial.
  pose proof (call_model_new decoded w) as Hcall.
  destruct (new_image decoded w) as [image_ref w1]. simpl in Hcall. rewrite Hcall.
  destruct (model_call decoded) as [results|e]; trivial.
  destruct (annotate image_ref results w1) as [dets w2]. reflexivity.
Qed.

(** C2.  The error responses of [POST /predict] and what causes each: no
    [image] field gives 400 "No image provided to API"; an upload that does
    not decode gives 400 "Invalid image"; a model call that raises gives 500
    "Model inference failed" with [str(e)] as detail; a save that raises
    gives 500 "Failed to save image".  Each cause gives its response, and a
    response with one of these bodies has that cause and no other. *)
Theorem predict_error_responses req w :
  ((files req !! "image" = None ->
    (predict uuid4 cfg req w).1
    = jsonify (JDict [("error", JStr "No image provided to API")]) 400)
   /\ (content (predict uuid4 cfg req w).1
       = JsonBody (JDict [("error", JStr "No image provided to API")]) ->
       files req !! "image" = None))
  /\ ((forall upload e,
        files req !! "image" = Some upload -> image_open upload = Raise e ->
        (predict uuid4 cfg req w).1 = jsonify (JDict [("error", JStr "Invalid image")]) 400)
      /\ (content (predict uuid4 cfg req w).1
          = JsonBody (JDict [("error", JStr "Invalid image")]) ->
          exists upload e,
            files req !! "image" = Some upload /\ image_open upload = Raise e))
  /\ ((forall upload decoded e,
        files req !! "image" = Some upload -> image_open upload = Return decoded ->
        model_call decoded = Raise e ->
        (predict uuid4 cfg req w).1
        = jsonify (JDict [("error", JStr "Model inference failed");
                          ("detail", JStr (exn_str e))]) 500)
      /\ (forall detail,
          content (predict uuid4 cfg req w).1
          = JsonBody (JDict [("error", JStr "Model inference failed");
                             ("detail", JStr detail)]) ->
          exists upload decoded e,
            files req !! "image" = Some upload /\ image_open upload = Return decoded
            /\ model_call decoded = Raise e /\ exn_str e = detail))
  /\ ((forall upload decoded results e,
        files req !! "image" = Some upload -> image_open upload = Return decoded ->
        model_call decoded = Return results ->
        (let '(image_ref, _, w2) := before_save decoded results w in
         (save_annotated uuid4 cfg image_ref w2).1 = Raise e) ->
        (predict uuid4 cfg req w).1
        = jsonify (JDict [("error", JStr "Failed to save image")]) 500)
      /\ (content (predict uuid4 cfg req w).1
          = JsonBody (JDict [("error", JStr "Failed to save image")]) ->
          exists upload decoded results e,
            files req !! "image" = Some upload /\ image_open upload = Return decoded
            /\ model_call decoded = Return results
            /\ (let '(image_ref, _, w2) := before_save decoded results w in
                (save_annotated uuid4 cfg image_ref w2).1 = Raise e))).
Proof.
  rewrite predict_stages.
  destruct (files req !! "image") as [upload|] eqn:Hfile;
    [destruct (image_open upload) as [decoded|e0] eqn:Hopen;
     [destruct (model_call decoded) as [results|e1] eqn:Hmodel;
      [destruct (before_save decoded results w) as [[image_ref dets] w2] eqn:Hbefore;
       destruct (save_annotated uuid4 cfg image_ref w2) as [[filename|e2] w3] eqn:Hsave
      |]|]|];
    simpl; repeat split; intros; simplify_eq/=; try congruence; eauto 10.
  - assert (decoded0 = decoded) as -> by congruence.
    assert (results0 = results) as -> by congruence.
    rewrite Hbefore, Hsave in *. discriminate.
  - exists upload, decoded, results, e2. rewrite Hbefore, Hsave. auto.
Qed.

(** A save that returns has written the JPEG encoding of the object, as it
    is at that moment, under a name made of the next uuid. *)
Lemma save_annotated_returns ref w2 filename w3 :
  save_annotated uuid4 cfg ref w2 = (Return filename, w3) ->
  filename = uuid4 (uuid_draws w2) +:+ ".jpg"
  /\ exists img bytes d,
      heap w2 !! ref = Some img
      /\ jpeg_encode img = Return bytes
      /\ upload_dir w2 = Some d
      /\ upload_dir w3
         = Some (<[filename := {| kind := RegularFile; mtime := clock w2;
                                  data := bytes; locked := false |}]> d)
      /\ heap w3 = heap w2
      /\ uuid_draws w3 = S (uuid_draws w2).
Proof.
  unfold save_annotated, uuid_uuid4, image_save, write_file, bind, ret. simpl.
  destruct (heap w2 !! ref) as [img|]; [|discriminate].
  destruct (jpeg_encode img) as [bytes|] eqn:Henc; [|discriminate].
  destruct (upload_dir w2) as [d|]; [|discriminate].
  destruct (d !! _) as [f|].
  - destruct (kind f); [|discriminate]. destruct (locked f); [discriminate|].
    intros [= <- <-]. split; trivial. exists img, bytes, d. auto 10.
  - intros [= <- <-]. split; trivial. exists img, bytes, d. auto 10.
Qed.

(** A save that raises leaves the directory as it was; its uuid is spent. *)
Lemma save_annotated_raises ref w2 e w3 :
  save_annotated uuid4 cfg ref w2 = (Raise e, w3) ->
  upload_dir w3 = upload_dir w2 /\ uuid_draws w3 = S (uuid_draws w2).
Proof.
  unfold save_annotated, uuid_uuid4, image_save, write_file, bind, ret. simpl.
  destruct (heap w2 !! ref) as [img|]; [|now intros [= _ <-]].
  destruct (jpeg_encode img) as [bytes|]; [|now intros [= _ <-]].
  destruct (upload_dir w2) as [d|]; [|now intros [= _ <-]].
  destruct (d !! _) as [f|]; [|discriminate].
  destruct (kind f); [|now intros [= _ <-]].
  destruct (locked f); [now intros [= _ <-]|discriminate].
Qed.

(** C9.  A request that fails before the save (no [image] field, an upload
    that does not decode, a model call that raises) leaves the upload
    directory exactly as it was: no artifact is created. *)
Theorem predict_failure_creates_no_artifact req w :
  files req !! "image" = None
  \/ (exists upload e, files req !! "image" = Some upload /\ image_open upload = Raise e)
  \/ (exists upload decoded e,
        files req !! "image" = Some upload /\ image_open upload = Return decoded
        /\ model_call decoded = Raise e) ->
  upload_dir (predict uuid4 cfg req w).2 = upload_dir w.
Proof.
  rewrite predict_stages.
  intros [Hnone | [(upload & e & Hfile & Hopen) | (upload & decoded & e & Hfile & Hopen & Hmodel)]].
  - now rewrite Hnone.
  - now rewrite Hfile, Hopen.
  - now rewrite Hfile, Hopen, Hmodel.
Qed.

(** A 200 from [predict]: every stage went through, and the save wrote the
    JPEG encoding of the annotated image under the name in the URL. *)
Lemma predict_success req w resp w' :
  predict uuid4 cfg req w = (resp, w') ->
  status resp = 200 ->
  exists upload decoded results bytes,
    let filename := uuid4 (uuid_draws w) +:+ ".jpg" in
    files req !! "image" = Some upload
    /\ image_open upload = Return decoded
    /\ model_call decoded = Return results
    /\ resp = jsonify (JDict [("detections", JList (replay decoded (concat results)).1.2);
                              ("image_url", JStr (url_for_serve_static req filename))])
                 200
    /\ jpeg_encode (replay decoded (concat results)).1.1 = Return bytes
    /\ lookup_entry filename w'
       = Some {| kind := RegularFile; mtime := clock w; data := bytes; locked := false |}.
Proof.
  rewrite predict_stages.
  destruct (files req !! "image") as [upload|] eqn:Hfile; [|now intros [= <- <-]].
  destruct (image_open upload) as [decoded|e0] eqn:Hopen; [|now intros [= <- <-]].
  destruct (model_call decoded) as [results|e1] eqn:Hmodel; [|now intros [= <- <-]].
  destruct (before_save_spec decoded results w) as (w2 & -> & Hheap & Hstore & _).
  destruct (save_annotated uuid4 cfg _ w2) as [[filename|e2] w3] eqn:Hsave;
    [|now intros [= <- <-]].
  intros [= <- <-] _.
  apply save_annotated_returns in Hsave
    as (Hname & img & bytes & d & Himg & Henc & Hd2 & Hd3 & _).
  destruct Hstore as (Hdir & Hclock & Hdraws).
  rewrite Hheap, list_lookup_middle in Himg by reflexivity. injection Himg as <-.
  rewrite Hdraws in Hname. subst filename.
  exists upload, decoded, results, bytes. simpl.
  repeat split; trivial.
  unfold lookup_entry. rewrite Hd3. simpl. rewrite lookup_insert_eq. congruence.
Qed.

(** The detections of a successful prediction follow the model's output:
    they are, one for one and in the model's order, the dicts of the first
    boxes it returned, and of all of them when no box raised while it was
    parsed or drawn. *)
Theorem predict_detections_follow_model_output req w resp w' :
  predict uuid4 cfg req w = (resp, w') ->
  status resp = 200 ->
  exists upload decoded results dets url,
    files req !! "image" = Some upload
    /\ image_open upload = Return decoded
    /\ model_call decoded = Return results
    /\ resp = jsonify (JDict [("detections", JList dets); ("image_url", JStr url)]) 200
    /\ Forall2 (fun box det => box_entry box = Some det)
         (take (length dets) (concat results)) dets
    /\ ((replay decoded (concat results)).2 = true ->
        length dets = length (concat results)).
Proof.
  intros Hrun Hok.
  destruct (predict_success req w resp w' Hrun Hok)
    as (upload & decoded & results & bytes & Hfile & Hopen & Hmodel & Hresp & _).
  destruct (replay_entries decoded (concat results)) as [Hall Hlen].
  eexists upload, decoded, results, _, _. repeat split; eauto.
Qed.

(** *** File names *)

Lemma string_length_app (s t : string) :
  String.length (s +:+ t) = (String.length s + String.length t)%nat.
Proof.
  induction s as [|a s IH]; trivial.
  change (String a s +:+ t) with (String a (s +:+ t)). simpl. now rewrite IH.
Qed.

(** Two names with the same extension come from the same stem. *)
Lemma string_app_inj_r (s1 s2 t : string) : s1 +:+ t = s2 +:+ t -> s1 = s2.
Proof.
  revert s2. induction s1 as [|a1 s1 IH]; intros [|a2 s2] H; trivial.
  - apply (f_equal String.length) in H. change ("" +:+ t) with t in H.
    rewrite (string_length_app (String a2 s2) t) in H. simpl in H. lia.
  - apply (f_equal String.length) in H. change ("" +:+ t) with t in H.
    rewrite (string_length_app (String a1 s1) t) in H. simpl in H. lia.
  - change (String a1 (s1 +:+ t) = String a2 (s2 +:+ t)) in H.
    injection H as -> H. f_equal. now apply IH.
Qed.

(** What one call does to the directory and to the count of uuids drawn: a
    200 has drawn one uuid and written the file of that name; any other
    response has left the directory as it was. *)
Lemma predict_store_step req w d :
  upload_dir w = Some d ->
  (status (predict uuid4 cfg req w).1 = 200
   /\ uuid_draws (predict uuid4 cfg req w).2 = S (uuid_draws w)
   /\ exists f,
       upload_dir (predict uuid4 cfg req w).2
       = Some (<[uuid4 (uuid_draws w) +:+ ".jpg" := f]> d))
  \/ (status (predict uuid4 cfg req w).1 <> 200
      /\ upload_dir (predict uuid4 cfg req w).2 = Some d
      /\ (uuid_draws w <= uuid_draws (predict uuid4 cfg req w).2)%nat).
Proof.
  intros Hd. rewrite predict_stages.
  destruct (files req !! "image") as [upload|]; [|right; simpl; auto with lia].
  destruct (image_open upload) as [decoded|e0]; [|right; simpl; auto with lia].
  destruct (model_call decoded) as [results|e1]; [|right; simpl; auto with lia].
  destruct (before_save_spec decoded results w) as (w2 & -> & _ & (Hdir & _ & Hdraws) & _).
  destruct (save_annotated uuid4 cfg _ w2) as [[filename|e2] w3] eqn:Hsave.
  - left. simpl.
    apply save_annotated_returns in Hsave
      as (Hname & img & bytes & d2 & _ & _ & Hd2 & Hd3 & _ & Hdraws3).
    assert (d2 = d) as -> by congruence.
    split; [reflexivity|]. split; [congruence|].
    eexists. rewrite Hd3, Hname, Hdraws. reflexivity.
  - right. simpl.
    destruct (save_annotated_raises _ _ _ _ Hsave) as [Hsame Hdraws3].
    split; [discriminate|]. split; [congruence|]. lia.
Qed.

(** Successive calls never write over an artifact, as long as the source of
    uuids does not repeat itself: starting from a directory that holds no
    name of a uuid still to be drawn, the directory after the calls contains
    the one before them, entry for entry, and has exactly one more entry per
    200 returned; so the names chosen were pairwise distinct and new. *)
Theorem serve_never_overwrites (reqs : list request) :
  Inj (=) (=) uuid4 ->
  forall w d,
    upload_dir w = Some d ->
    (forall k, (uuid_draws w <= k)%nat -> d !! (uuid4 k +:+ ".jpg") = None) ->
    exists d',
      upload_dir (serve uuid4 cfg reqs w).2 = Some d'
      /\ d ⊆ d'
      /\ size d' = (size d + successes (serve uuid4 cfg reqs w).1)%nat.
Proof.
  intros Hinj. induction reqs as [|req reqs IH]; intros w d Hd Hfresh; simpl.
  - exists d. split; [assumption|]. split; [reflexivity|]. unfold successes. simpl. lia.
  - destruct (predict_store_step req w d Hd)
      as [(Hok & Hdraws & f & Hd1) | (Hko & Hd1 & Hdraws)];
      destruct (predict uuid4 cfg req w) as [resp w1]; simpl in *.
    + assert (Hnew : d !! (uuid4 (uuid_draws w) +:+ ".jpg") = None) by (apply Hfresh; lia).
      destruct (IH w1 _ Hd1) as (d' & Hd' & Hsub & Hsize).
      { intros k Hk. rewrite lookup_insert_ne.
        - apply Hfresh. lia.
        - intros Heq%string_app_inj_r%Hinj. lia. }
      destruct (serve uuid4 cfg reqs w1) as [resps w2]. simpl in *.
      exists d'. split; [assumption|]. split.
      * etrans; [|exact Hsub]. now apply insert_subseteq.
      * rewrite Hsize, map_size_insert_None by assumption.
        unfold successes. rewrite filter_cons_True by assumption. simpl. lia.
    + destruct (IH w1 d Hd1) as (d' & Hd' & Hsub & Hsize).
      { intros k Hk. apply Hfresh. lia. }
      destruct (serve uuid4 cfg reqs w1) as [resps w2]. simpl in *.
      exists d'. split; [assumption|]. split; [assumption|].
      rewrite Hsize. unfold successes. now rewrite filter_cons_False by assumption.
Qed.

End Pipeline.

(** ** More on the cleanup thread *)

Section SweeperAccounts.
Context {I : Imaging}.
Variable cfg : config.

Implicit Types (w : world) (d : gmap string file) (f : file).


(** [sweep_entry], entry by entry: a name that is not a regular file, or
    whose file has not expired, is passed over; an expired file is unlinked
    and counted, or, when [os.remove] raises, logged and not counted. *)
Lemma sweep_entry_cases now removed name w d :
  upload_dir w = Some d ->
  sweep_entry cfg now removed name w =
  match d !! name with
  | Some f =>
      if swept cfg now f
      then (Return (removed + 1), set_upload_dir (Some (delete name d)) w)
      else if stuck cfg now f
           then (Return removed, emit (remove_failed cfg name) w)
           else (Return removed, w)
  | None => (Return removed, w)
  end.
Proof.
  intros Hd. unfold sweep_entry, os_path_isfile, os_path_getmtime.
  unfold bind at 1. rewrite (lookup_entry_Some _ _ _ Hd).
  destruct (d !! name) as [f|] eqn:Hf; simpl; trivial.
  unfold swept, stuck, expired. destruct (kind f) eqn:Hk; simpl; trivial.
  unfold bind at 1. rewrite (lookup_entry_Some _ _ _ Hd), Hf.
  destruct (float_gt_int _ _); simpl; trivial.
  unfold try_except, bind, os_remove. rewrite Hd, Hf, Hk.
  destruct (locked f); reflexivity.
Qed.


(** A pass that finds no expired regular file does nothing at all. *)
Lemma sweep_names_quiet now names : forall removed w d,
  upload_dir w = Some d ->
  (forall name f, d !! name = Some f -> kind f = RegularFile -> expired cfg now f = false) ->
  for_fold names removed (sweep_entry cfg now) w = (Return removed, w).
Proof.
  induction names as [|name names IH]; intros removed w d Hd Hyoung; simpl; trivial.
  unfold bind. rewrite (sweep_entry_cases now removed name w d Hd).
  destruct (d !! name) as [f|] eqn:Hf; [|now apply (IH removed w d)].
  assert (swept cfg now f = false /\ stuck cfg now f = false) as [-> ->].
  { unfold swept, stuck. destruct (kind f) eqn:Hk; auto.
    now rewrite (Hyoung name f Hf Hk). }
  now apply (IH removed w d).
Qed.




(** One cycle leaves a directory that is part of the one it found. *)
Lemma sweep_cycle_submap w d :
  upload_dir w = Some d ->
  exists d', upload_dir (sweep_cycle cfg w).2 = Some d' /\ d' ⊆ d.
Proof.
  intros Hd.
  destruct (sweep_cycle_spec cfg w) as (w1 & evs & _ & _ & Hdir & _ & _ & _ & Hspec).
  rewrite Hd in Hspec. destruct Hspec as [Hd1 _].
  eexists. split; [now rewrite Hdir, Hd1|]. apply map_filter_subseteq.
Qed.


(** A sweep cycle that finds no expired regular file is the sleep and
    nothing else: the directory, the log and the rest of the world are as
    if the sweep had not run. *)
Theorem sweep_cycle_quiet w d :
  upload_dir w = Some d ->
  (forall name f, d !! name = Some f -> kind f = RegularFile ->
                  expired cfg (clock w) f = false) ->
  sweep_cycle cfg w = time_sleep (CLEANUP_INTERVAL_SECONDS cfg) w.
Proof.
  intros Hd Hyoung.
  unfold sweep_cycle, try_except, sweep, time_time, os_listdir, bind.
  rewrite Hd, (sweep_names_quiet (clock w) _ 0 w d Hd Hyoung). reflexivity.
Qed.

(** However many times the loop goes round, and whether or not it ends on
    an error, the worker only ever unlinks: the directory it leaves is part
    of the one it found. *)
Theorem cleanup_worker_only_removes cycles w d :
  upload_dir w = Some d ->
  exists d', upload_dir (cleanup_worker cfg cycles w).2 = Some d' /\ d' ⊆ d.
Proof.
  intros Hd. unfold cleanup_worker, logger_info, modify. unfold bind at 1.
  assert (Hloop : forall n w0 d0, upload_dir w0 = Some d0 ->
            exists d', upload_dir (sweep_loop cfg n w0).2 = Some d' /\ d' ⊆ d0).
  { clear. induction n as [|n IH]; intros w0 d0 Hd0; simpl.
    - exists d0. split; [assumption|reflexivity].
    - destruct (sweep_cycle_submap w0 d0 Hd0) as (d1 & Hd1 & Hsub1).
      unfold bind. destruct (sweep_cycle cfg w0) as [[[]|e] w1]; simpl in *.
      + destruct (IH w1 d1 Hd1) as (d2 & Hd2 & Hsub2).
        exists d2. split; [assumption|]. etrans; [exact Hsub2|exact Hsub1].
      + exists d1. split; assumption. }
  apply Hloop. simpl. assumption.
Qed.

End SweeperAccounts.

(** ** More on the prediction pipeline *)

Section PipelineMore.
Context {I : Imaging} {D : Detector I}.
Variable uuid4 : nat -> string.
Variable cfg : config.

Implicit Types (w : world) (img : image).

(** The save touches one name of the directory and the count of uuids
    drawn, whether it returns or raises: not the clock, the log, the heap
    or any other name. *)
Lemma save_annotated_frame ref w2 :
  clock (save_annotated uuid4 cfg ref w2).2 = clock w2
  /\ trace (save_annotated uuid4 cfg ref w2).2 = trace w2
  /\ heap (save_annotated uuid4 cfg ref w2).2 = heap w2
  /\ uuid_draws (save_annotated uuid4 cfg ref w2).2 = S (uuid_draws w2)
  /\ forall name, name <> uuid4 (uuid_draws w2) +:+ ".jpg" ->
       lookup_entry name (save_annotated uuid4 cfg ref w2).2 = lookup_entry name w2.
Proof.
  unfold save_annotated, uuid_uuid4, image_save, write_file, bind, ret, lookup_entry. simpl.
  destruct (heap w2 !! ref) as [img|]; [|simpl; auto].
  destruct (jpeg_encode img) as [bytes|]; [|simpl; auto].
  destruct (upload_dir w2) as [d|] eqn:Hd; [|simpl; rewrite ?Hd; auto].
  destruct (d !! _) as [f|].
  - destruct (kind f); [|simpl; rewrite ?Hd; auto].
    destruct (locked f); simpl; rewrite ?Hd; repeat split; trivial.
    intros name Hne. simpl. now rewrite lookup_insert_ne.
  - simpl. repeat split; trivial. intros name Hne. simpl. now rewrite lookup_insert_ne.
Qed.

(** The world after a 200: one uuid has been drawn, the heap has the
    annotated image as one more object, and the log has one more record
    exactly when a box raised. *)
Lemma predict_success_world req w resp w' :
  predict uuid4 cfg req w = (resp, w') ->
  status resp = 200 ->
  exists upload decoded results,
    files req !! "image" = Some upload
    /\ image_open upload = Return decoded
    /\ model_call decoded = Return results
    /\ uuid_draws w' = S (uuid_draws w)
    /\ heap w' = (heap w ++ [(replay decoded (concat results)).1.1])%list
    /\ trace w' = (trace w ++ if (replay decoded (concat results)).2 then []
                              else [LogException "Failed while parsing/drawing results"])%list.
Proof.
  rewrite predict_stages.
  destruct (files req !! "image") as [upload|] eqn:Hfile; [|now intros [= <- <-]].
  destruct (image_open upload) as [decoded|e0] eqn:Hopen; [|now intros [= <- <-]].
  destruct (model_call decoded) as [results|e1] eqn:Hmodel; [|now intros [= <- <-]].
  destruct (before_save_spec decoded results w)
    as (w2 & -> & Hheap & (Hdir & Hclock & Hdraws) & Htr).
  destruct (save_annotated_frame (length (heap w)) w2) as (Hc & Ht & Hh & Hu & _).
  destruct (save_annotated uuid4 cfg _ w2) as [[filename|e2] w3]; [|now intros [= <- <-]].
  intros [= <- <-] _. simpl in *.
  exists upload, decoded, results. repeat split; trivial; congruence.
Qed.

(** [predict] writes under one name at most, the one made of the next uuid:
    whatever the request and however it ends, every other entry of the
    upload directory is as it was. *)
Theorem predict_leaves_other_artifacts req w name :
  name <> uuid4 (uuid_draws w) +:+ ".jpg" ->
  lookup_entry name (predict uuid4 cfg req w).2 = lookup_entry name w.
Proof.
  intros Hne. rewrite predict_stages.
  destruct (files req !! "image") as [upload|]; [|auto].
  destruct (image_open upload) as [decoded|e0]; [|auto].
  destruct (model_call decoded) as [results|e1]; [|auto].
  destruct (before_save_spec decoded results w)
    as (w2 & -> & _ & (Hdir & Hclock & Hdraws) & _).
  destruct (save_annotated_frame (length (heap w)) w2) as (Hc & _ & _ & _ & Hother).
  rewrite Hdraws in Hother. specialize (Hother name Hne).
  assert (Hsame : lookup_entry name w2 = lookup_entry name w)
    by (unfold lookup_entry; now rewrite Hdir).
  destruct (save_annotated uuid4 cfg _ w2) as [[filename|e2] w3]; simpl in *;
    unfold lookup_entry in *; simpl; congruence.
Qed.

(** What a successful prediction leaves in the log: nothing when every box
    was parsed and drawn, and otherwise the one record of the box that
    raised, the response being a 200 all the same. *)
Theorem predict_success_log req w resp w' :
  predict uuid4 cfg req w = (resp, w') ->
  status resp = 200 ->
  exists upload decoded results,
    files req !! "image" = Some upload
    /\ image_open upload = Return decoded
    /\ model_call decoded = Return results
    /\ trace w' = (trace w ++ if (replay decoded (concat results)).2 then []
                              else [LogException "Failed while parsing/drawing results"])%list.
Proof.
  intros Hrun Hok.
  destruct (predict_success_world req w resp w' Hrun Hok)
    as (upload & decoded & results & ? & ? & ? & _ & _ & Htr).
  exists upload, decoded, results. auto.
Qed.

(** A model that finds nothing: when the results hold no box at all, a
    successful prediction answers with an empty list of detections, saves
    the decoded image as it came, nothing drawn on it, under the name the
    URL ends with, and logs nothing. *)
Theorem predict_no_boxes req w resp w' upload decoded results :
  predict uuid4 cfg req w = (resp, w') ->
  status resp = 200 ->
  files req !! "image" = Some upload ->
  image_open upload = Return decoded ->
  model_call decoded = Return results ->
  concat results = [] ->
  exists bytes f,
    resp = jsonify (JDict [("detections", JList []);
                           ("image_url",
                            JStr (host_url req +:+ "/static/"
                                  +:+ uuid4 (uuid_draws w) +:+ ".jpg"))]) 200
    /\ jpeg_encode decoded = Return bytes
    /\ lookup_entry (uuid4 (uuid_draws w) +:+ ".jpg") w' = Some f
    /\ kind f = RegularFile
    /\ data f = bytes
    /\ trace w' = trace w.
Proof.
  intros Hrun Hok Hfile Hopen Hmodel Hempty.
  destruct (predict_success uuid4 cfg req w resp w' Hrun Hok)
    as (upload' & decoded' & results' & bytes & Hfile' & Hopen' & Hmodel' & Hresp & Henc & Hentry).
  destruct (predict_success_world req w resp w' Hrun Hok)
    as (upload2 & decoded2 & results2 & Hfile2 & Hopen2 & Hmodel2 & _ & _ & Htr).
  assert (upload' = upload) as -> by congruence.
  assert (decoded' = decoded) as -> by congruence.
  assert (results' = results) as -> by congruence.
  assert (upload2 = upload) as -> by congruence.
  assert (decoded2 = decoded) as -> by congruence.
  assert (results2 = results) as -> by congruence.
  rewrite Hempty in *. simpl in *.
  eexists bytes, _. repeat split; [assumption|assumption|exact Hentry|reflexivity..|].
  now rewrite app_nil_r in Htr.
Qed.

(** The dict of a box carries the model's own name for its class. *)
Lemma box_entry_Some box det :
  box_entry box = Some det ->
  exists x_min y_min x_max y_max conf cls c label,
    box = [x_min; y_min; x_max; y_max; conf; cls]
    /\ py_int cls = Return c
    /\ model_names !! c = Some label
    /\ det = det_dict x_min y_min x_max y_max conf c label.
Proof.
  unfold box_entry, unpack_box, names_getitem.
  destruct box as [|x_min [|y_min [|x_max [|y_max [|conf [|cls [|? ?]]]]]]]; try discriminate.
  destruct (py_int cls) as [c|] eqn:Hc; [|discriminate].
  destruct (model_names !! c) as [label|] eqn:Hl; [|discriminate].
  intros [= <-]. eauto 12.
Qed.

(** Every entry of the detections of a 200 is well formed: it is the dict
    of a six-number box that the model returned, its class is the integer
    part of the box's last number, and its label is [model.names] at that
    class. *)
Theorem predict_detection_labels req w resp w' :
  predict uuid4 cfg req w = (resp, w') ->
  status resp = 200 ->
  exists upload decoded results dets url,
    files req !! "image" = Some upload
    /\ image_open upload = Return decoded
    /\ model_call decoded = Return results
    /\ resp = jsonify (JDict [("detections", JList dets); ("image_url", JStr url)]) 200
    /\ Forall (fun det =>
                 exists x_min y_min x_max y_max conf cls c label,
                   [x_min; y_min; x_max; y_max; conf; cls] ∈ concat results
                   /\ py_int cls = Return c
                   /\ model_names !! c = Some label
                   /\ det = det_dict x_min y_min x_max y_max conf c label) dets.
Proof.
  intros Hrun Hok.
  destruct (predict_success uuid4 cfg req w resp w' Hrun Hok)
    as (upload & decoded & results & bytes & Hfile & Hopen & Hmodel & Hresp & _).
  eexists upload, decoded, results, _, _. repeat split; [assumption..|exact Hresp|].
  destruct (replay_entries decoded (concat results)) as [Hall _].
  assert (Hfirsts : forall box,
            box ∈ take (length (replay decoded (concat results)).1.2) (concat results) ->
            box ∈ concat results).
  { intros box Hin.
    rewrite <- (take_drop (length (replay decoded (concat results)).1.2) (concat results)).
    apply elem_of_app. now left. }
  revert Hall Hfirsts. generalize (replay decoded (concat results)).1.2 as dets.
  intros dets. generalize (take (length dets) (concat results)) as firsts.
  intros firsts Hall.
  induction Hall as [|box det firsts dets Hentry _ IH]; intros Hfirsts; constructor.
  - apply box_entry_Some in Hentry
      as (x_min & y_min & x_max & y_max & conf & cls & c & label & -> & ? & ? & ?).
    exists x_min, y_min, x_max, y_max, conf, cls, c, label. split; [|auto].
    apply Hfirsts. apply elem_of_cons. now left.
  - apply IH. intros b Hb. apply Hfirsts. apply elem_of_cons. now right.
Qed.

(** The shape of every response of [predict], whatever the order in which
    the keys of the body are sent: a 200 whose body is an object of exactly
    two keys, the detections and the URL, or a 400 or 500 whose body is an
    object with an ["error"] message; never anything else. *)
Theorem predict_response_shape req w :
  (status (predict uuid4 cfg req w).1 = 200
   /\ exists dets url items,
       content (predict uuid4 cfg req w).1 = JsonBody (JDict items)
       /\ items ≡ₚ [("detections", JList dets); ("image_url", JStr url)])
  \/ ((status (predict uuid4 cfg req w).1 = 400 \/ status (predict uuid4 cfg req w).1 = 500)
      /\ exists msg items,
          content (predict uuid4 cfg req w).1 = JsonBody (JDict items)
          /\ ("error", JStr msg) ∈ items).
Proof.
  assert (Hfirst : forall (msg : string) (rest : list (string * json)),
            ("error", JStr msg) ∈ ("error", JStr msg) :: rest)
    by (intros; apply elem_of_cons; now left).
  rewrite predict_stages.
  destruct (files req !! "image") as [upload|]; [|right; simpl; eauto 6].
  destruct (image_open upload) as [decoded|e0]; [|right; simpl; eauto 6].
  destruct (model_call decoded) as [results|e1]; [|right; simpl; eauto 6].
  destruct (before_save decoded results w) as [[image_ref dets] w2].
  destruct (save_annotated uuid4 cfg image_ref w2) as [[filename|e2] w3].
  - left. simpl. split; [reflexivity|]. eexists _, _, _. split; reflexivity.
  - right. simpl. eauto 6.
Qed.

(** Where the artifact of a successful prediction is, and what the URL
    names.  The file is saved in the upload directory under a name of the
    form [<uuid>.jpg], as a regular file that holds the JPEG encoding of the
    image with the boxes drawn on it; the URL in the response is the host
    of the request, then [/static/], then that name, whatever directory
    [UPLOAD_DIR] is. *)
Theorem predict_saves_under_url_name req w resp w' :
  predict uuid4 cfg req w = (resp, w') ->
  status resp = 200 ->
  exists filename upload decoded results bytes f,
    files req !! "image" = Some upload
    /\ image_open upload = Return decoded
    /\ model_call decoded = Return results
    /\ filename = uuid4 (uuid_draws w) +:+ ".jpg"
    /\ resp = jsonify (JDict [("detections", JList (replay decoded (concat results)).1.2);
                              ("image_url", JStr (host_url req +:+ "/static/" +:+ filename))])
                 200
    /\ jpeg_encode (replay decoded (concat results)).1.1 = Return bytes
    /\ lookup_entry filename w' = Some f
    /\ kind f = RegularFile
    /\ data f = bytes.
Proof.
  intros Hrun Hok.
  destruct (predict_success uuid4 cfg req w resp w' Hrun Hok)
    as (upload & decoded & results & bytes & Hfile & Hopen & Hmodel & Hresp & Henc & Hentry).
  eexists (uuid4 (uuid_draws w) +:+ ".jpg"), upload, decoded, results, bytes, _.
  repeat split; [assumption..|exact Hentry|reflexivity|reflexivity].
Qed.

End PipelineMore.

(** *** The handlers on the requests of [Demo] *)

Lemma predict_error_responses_witness :
  (predict (D := Demo.mock (Return Demo.one_box)) Demo.uuid4 default_config
     {| files := ∅; host_url := "http://localhost:5000" |} Demo.fresh_world).1
  = jsonify (JDict [("error", JStr "No image provided to API")]) 400
  /\ (predict (D := Demo.mock (Return Demo.one_box)) Demo.uuid4 default_config
        (Demo.post [x00; x01]) Demo.fresh_world).1
     = jsonify (JDict [("error", JStr "Invalid image")]) 400
  /\ (predict (D := Demo.mock (Raise (Exn "RuntimeError" "out of memory")))
        Demo.uuid4 default_config (Demo.post Demo.jpeg_upload) Demo.fresh_world).1
     = jsonify (JDict [("error", JStr "Model inference failed");
                       ("detail", JStr "out of memory")]) 500
  /\ (predict (D := Demo.mock (Return Demo.one_box)) Demo.uuid4 default_config
        (Demo.post Demo.jpeg_upload) (set_upload_dir None Demo.fresh_world)).1
     = jsonify (JDict [("error", JStr "Failed to save image")]) 500.
Proof.
  split; [|split; [|split]].
  - apply (proj1 (proj1 (predict_error_responses (D := Demo.mock (Return Demo.one_box))
                           Demo.uuid4 default_config
                           {| files := ∅; host_url := "http://localhost:5000" |}
                           Demo.fresh_world))).
    reflexivity.
  - apply (proj1 (proj1 (proj2 (predict_error_responses
                                  (D := Demo.mock (Return Demo.one_box))
                                  Demo.uuid4 default_config (Demo.post [x00; x01])
                                  Demo.fresh_world)))
             [x00; x01] (Exn "UnidentifiedImageError" "cannot identify image file"));
      reflexivity.
  - apply (proj1 (proj1 (proj2 (proj2 (predict_error_responses
                                         (D := Demo.mock (Raise (Exn "RuntimeError" "out of memory")))
                                         Demo.uuid4 default_config
                                         (Demo.post Demo.jpeg_upload) Demo.fresh_world))))
             Demo.jpeg_upload Demo.blank
             (Exn "RuntimeError" "out of memory"));
      reflexivity.
  - apply (proj1 (proj2 (proj2 (proj2 (predict_error_responses
                                         (D := Demo.mock (Return Demo.one_box))
                                         Demo.uuid4 default_config
                                         (Demo.post Demo.jpeg_upload)
                                         (set_upload_dir None Demo.fresh_world)))))
             Demo.jpeg_upload Demo.blank
             Demo.one_box
             (Exn "FileNotFoundError" "static/3f2b8c1e-0000-4000-8000-0.jpg"));
      reflexivity.
Defined.

Lemma predict_failure_creates_no_artifact_witness :
  upload_dir (predict (D := Demo.mock (Raise (Exn "RuntimeError" "out of memory")))
                Demo.uuid4 default_config (Demo.post Demo.jpeg_upload) Demo.aged_world).2
  = Some Demo.aged_dir.
Proof.
  apply (predict_failure_creates_no_artifact
           (D := Demo.mock (Raise (Exn "RuntimeError" "out of memory")))
           Demo.uuid4 default_config (Demo.post Demo.jpeg_upload) Demo.aged_world).
  right. right.
  exists Demo.jpeg_upload, Demo.blank,
    (Exn "RuntimeError" "out of memory").
  repeat split.
Defined.


Lemma predict_detections_follow_model_output_witness :
  exists upload decoded results dets url,
    files (Demo.post Demo.jpeg_upload) !! "image" = Some upload
    /\ image_open upload = Return decoded
    /\ model_call (Detector := Demo.mock (Return Demo.two_boxes)) decoded = Return results
    /\ (predict (D := Demo.mock (Return Demo.two_boxes)) Demo.uuid4 default_config
          (Demo.post Demo.jpeg_upload) Demo.fresh_world).1
       = jsonify (JDict [("detections", JList dets); ("image_url", JStr url)]) 200
    /\ Forall2 (fun box det => box_entry (D := Demo.mock (Return Demo.two_boxes)) box
                               = Some det)
         (take (length dets) (concat results)) dets
    /\ ((replay (D := Demo.mock (Return Demo.two_boxes)) decoded (concat results)).2 = true ->
        length dets = length (concat results)).
Proof.
  apply (predict_detections_follow_model_output (D := Demo.mock (Return Demo.two_boxes))
           Demo.uuid4 default_config (Demo.post Demo.jpeg_upload) Demo.fresh_world
           _ (predict (D := Demo.mock (Return Demo.two_boxes)) Demo.uuid4 default_config
                (Demo.post Demo.jpeg_upload) Demo.fresh_world).2).
  - apply surjective_pairing.
  - reflexivity.
Defined.

(** The stand-in source of uuids never repeats. *)
Lemma demo_uuid4_inj : Inj (=) (=) Demo.uuid4.
Proof.
  intros m n H. unfold Demo.uuid4 in H.
  apply (inj (String.app _)) in H. now apply (inj pretty) in H.
Qed.

Lemma serve_never_overwrites_witness :
  exists d',
    upload_dir (serve (D := Demo.mock (Return Demo.one_box)) Demo.uuid4 default_config
                  [Demo.post Demo.jpeg_upload; Demo.post [x00]; Demo.post Demo.jpeg_upload]
                  Demo.fresh_world).2 = Some d'
    /\ ∅ ⊆ d'
    /\ size d' = 2%nat.
Proof.
  destruct (serve_never_overwrites (D := Demo.mock (Return Demo.one_box))
              Demo.uuid4 default_config
              [Demo.post Demo.jpeg_upload; Demo.post [x00]; Demo.post Demo.jpeg_upload]
              demo_uuid4_inj Demo.fresh_world ∅ eq_refl (fun k _ => lookup_empty _))
    as (d' & Hd' & Hsub & Hsize).
  exists d'. split; [exact Hd'|]. split; [exact Hsub|]. exact Hsize.
Defined.

Lemma annotate_draws_in_place_witness :
  heap (annotate (D := Demo.mock (Return Demo.one_box)) 0 Demo.one_box
          Demo.decoded_world).2
  = [ {| Demo.payload := Demo.jpeg_upload;
         Demo.strokes := [Demo.Rect [10; 10; 100; 100]%float;
                          Demo.Label (10, 10)%float "aphid 0.92"] |} ].
Proof.
  apply (proj1 (annotate_draws_in_place (D := Demo.mock (Return Demo.one_box))
                  0 Demo.one_box
                  Demo.decoded_world
                  Demo.blank eq_refl)).
Defined.

(** The decoded image handed to the annotation step is not the same after
    it: the object itself has been drawn on. *)
Lemma annotate_changes_decoded_image :
  heap Demo.decoded_world !! 0%nat
  = Some Demo.blank
  /\ heap (annotate (D := Demo.mock (Return Demo.one_box)) 0 Demo.one_box
             Demo.decoded_world).2 !! 0%nat
     <> Some Demo.blank.
Proof.
  split; [reflexivity|]. vm_compute. discriminate.
Qed.

(** C1, at an input where it fails.  The model returns two boxes and the
    rectangle of the first cannot be drawn: the response is a 200 whose
    [detections] has the first box only; the second, which the model did
    return, is dropped. *)
Lemma predict_drops_detections_after_draw_failure :
  length (concat Demo.two_boxes) = 2%nat
  /\ (predict (D := Demo.mock (Return Demo.two_boxes)) Demo.uuid4 default_config
        (Demo.post Demo.jpeg_upload) Demo.fresh_world).1
     = jsonify (JDict [("detections",
                        JList [det_dict 100 10 10 100 0.92 0 "aphid"]);
                       ("image_url",
                        JStr "http://localhost:5000/static/3f2b8c1e-0000-4000-8000-0.jpg")])
         200.
Proof.
  split; reflexivity.
Qed.

(** *** The sweeper on the directory of [Demo.aged_world] *)

Lemma sweep_cycle_eviction_witness :
  lookup_entry "old.jpg" (sweep_cycle default_config Demo.aged_world).2 = None
  /\ lookup_entry "stuck.jpg" (sweep_cycle default_config Demo.aged_world).2
     = Some (Demo.entry RegularFile 0 true)
  /\ lookup_entry "recent.jpg" (sweep_cycle default_config Demo.aged_world).2
     = Some (Demo.entry RegularFile 100000 false).
Proof.
  split; [|split].
  - apply (proj1 (sweep_cycle_eviction default_config Demo.aged_world "old.jpg"
                    (Demo.entry RegularFile 0 false) eq_refl)); reflexivity.
  - apply (proj1 (sweep_cycle_eviction default_config Demo.aged_world "stuck.jpg"
                    (Demo.entry RegularFile 0 true) eq_refl)); reflexivity.
  - apply (proj2 (sweep_cycle_eviction default_config Demo.aged_world "recent.jpg"
                    (Demo.entry RegularFile 100000 false) eq_refl)); reflexivity.
Defined.

(** A regular file older than [FILE_MAX_AGE_SECONDS] that is still in the
    directory after a sweep cycle: its removal failed. *)
Lemma sweep_cycle_keeps_locked_file :
  lookup_entry "stuck.jpg" Demo.aged_world = Some (Demo.entry RegularFile 0 true)
  /\ kind (Demo.entry RegularFile 0 true) = RegularFile
  /\ float_gt_int (clock Demo.aged_world - mtime (Demo.entry RegularFile 0 true))%float
       (FILE_MAX_AGE_SECONDS default_config) = true
  /\ lookup_entry "stuck.jpg" (sweep_cycle default_config Demo.aged_world).2 <> None.
Proof.
  repeat split. vm_compute. discriminate.
Qed.



Lemma sweep_cycle_skips_non_files_witness :
  lookup_entry "cache" (sweep_cycle default_config Demo.aged_world).2
  = Some (Demo.entry Directory 0 false).
Proof.
  apply (sweep_cycle_skips_non_files default_config Demo.aged_world "cache"
           (Demo.entry Directory 0 false)); [reflexivity | discriminate].
Defined.

(** *** Further runs on the requests and directories of [Demo] *)

Module Scenario.

(** The spec's scenario, the same upload with two boxes of which the first
    cannot be drawn, and a model that finds nothing. *)
Definition one_run : response * world :=
  predict (D := Demo.mock (Return Demo.one_box)) Demo.uuid4 default_config
    (Demo.post Demo.jpeg_upload) Demo.fresh_world.

Definition two_run : response * world :=
  predict (D := Demo.mock (Return Demo.two_boxes)) Demo.uuid4 default_config
    (Demo.post Demo.jpeg_upload) Demo.fresh_world.

Definition no_box_run : response * world :=
  predict (D := Demo.mock (Return [[]; []])) Demo.uuid4 default_config
    (Demo.post Demo.jpeg_upload) Demo.fresh_world.

End Scenario.


Lemma sweep_cycle_quiet_witness :
  sweep_cycle default_config Demo.served_world
  = time_sleep (CLEANUP_INTERVAL_SECONDS default_config) Demo.served_world.
Proof.
  apply (sweep_cycle_quiet default_config Demo.served_world
           {[ "3f2b8c1e-0000-4000-8000-0.jpg" :=
                {| kind := RegularFile; mtime := 0;
                   data := [xff; xd8; xff; xe0; x01; x02]; locked := false |} ]}).
  - reflexivity.
  - intros name f [<- <-]%lookup_singleton_Some _. reflexivity.
Defined.

Lemma cleanup_worker_only_removes_witness :
  exists d',
    upload_dir (cleanup_worker default_config 2 Demo.aged_world).2 = Some d'
    /\ d' ⊆ Demo.aged_dir.
Proof.
  exact (cleanup_worker_only_removes default_config 2 Demo.aged_world Demo.aged_dir eq_refl).
Defined.

Lemma predict_leaves_other_artifacts_witness :
  lookup_entry "old.jpg"
    (predict (D := Demo.mock (Return Demo.one_box)) Demo.uuid4 default_config
       (Demo.post Demo.jpeg_upload) Demo.aged_world).2
  = lookup_entry "old.jpg" Demo.aged_world.
Proof.
  apply (predict_leaves_other_artifacts (D := Demo.mock (Return Demo.one_box))
           Demo.uuid4 default_config (Demo.post Demo.jpeg_upload) Demo.aged_world "old.jpg").
  intros H. vm_compute in H. discriminate.
Defined.

Lemma predict_success_log_witness :
  exists upload decoded results,
    files (Demo.post Demo.jpeg_upload) !! "image" = Some upload
    /\ image_open upload = Return decoded
    /\ model_call (Detector := Demo.mock (Return Demo.two_boxes)) decoded = Return results
    /\ trace Scenario.two_run.2
       = (trace Demo.fresh_world
          ++ if (replay (D := Demo.mock (Return Demo.two_boxes)) decoded (concat results)).2
             then [] else [LogException "Failed while parsing/drawing results"])%list.
Proof.
  apply (predict_success_log (D := Demo.mock (Return Demo.two_boxes))
           Demo.uuid4 default_config (Demo.post Demo.jpeg_upload) Demo.fresh_world
           Scenario.two_run.1 Scenario.two_run.2).
  - apply surjective_pairing.
  - reflexivity.
Defined.

Lemma predict_no_boxes_witness :
  exists bytes f,
    Scenario.no_box_run.1
    = jsonify (JDict [("detections", JList []);
                      ("image_url",
                       JStr ("http://localhost:5000" +:+ "/static/"
                             +:+ Demo.uuid4 0 +:+ ".jpg"))]) 200
    /\ @jpeg_encode Demo.pillow Demo.blank = Return bytes
    /\ lookup_entry (Demo.uuid4 0 +:+ ".jpg") Scenario.no_box_run.2 = Some f
    /\ kind f = RegularFile
    /\ data f = bytes
    /\ trace Scenario.no_box_run.2 = trace Demo.fresh_world.
Proof.
  apply (predict_no_boxes (D := Demo.mock (Return [[]; []]))
           Demo.uuid4 default_config (Demo.post Demo.jpeg_upload) Demo.fresh_world
           Scenario.no_box_run.1 Scenario.no_box_run.2
           Demo.jpeg_upload Demo.blank [[]; []]); reflexivity.
Defined.

Lemma predict_detection_labels_witness :
  exists upload decoded results dets url,
    files (Demo.post Demo.jpeg_upload) !! "image" = Some upload
    /\ image_open upload = Return decoded
    /\ model_call (Detector := Demo.mock (Return Demo.one_box)) decoded = Return results
    /\ Scenario.one_run.1
       = jsonify (JDict [("detections", JList dets); ("image_url", JStr url)]) 200
    /\ Forall (fun det =>
                 exists x_min y_min x_max y_max conf cls c label,
                   [x_min; y_min; x_max; y_max; conf; cls] ∈ concat results
                   /\ py_int cls = Return c
                   /\ model_names (Detector := Demo.mock (Return Demo.one_box)) !! c
                      = Some label
                   /\ det = det_dict x_min y_min x_max y_max conf c label) dets.
Proof.
  apply (predict_detection_labels (D := Demo.mock (Return Demo.one_box))
           Demo.uuid4 default_config (Demo.post Demo.jpeg_upload) Demo.fresh_world
           Scenario.one_run.1 Scenario.one_run.2).
  - apply surjective_pairing.
  - reflexivity.
Defined.

Lemma predict_saves_under_url_name_witness :
  exists filename upload decoded results bytes f,
    files (Demo.post Demo.jpeg_upload) !! "image" = Some upload
    /\ image_open upload = Return decoded
    /\ model_call (Detector := Demo.mock (Return Demo.one_box)) decoded = Return results
    /\ filename = Demo.uuid4 0 +:+ ".jpg"
    /\ Scenario.one_run.1
       = jsonify (JDict [("detections",
                          JList (replay (D := Demo.mock (Return Demo.one_box))
                                   decoded (concat results)).1.2);
                         ("image_url",
                          JStr ("http://localhost:5000" +:+ "/static/" +:+ filename))])
           200
    /\ jpeg_encode (replay (D := Demo.mock (Return Demo.one_box))
                      decoded (concat results)).1.1 = Return bytes
    /\ lookup_entry filename Scenario.one_run.2 = Some f
    /\ kind f = RegularFile
    /\ data f = bytes.
Proof.
  apply (predict_saves_under_url_name (D := Demo.mock (Return Demo.one_box))
           Demo.uuid4 default_config (Demo.post Demo.jpeg_upload) Demo.fresh_world
           Scenario.one_run.1 Scenario.one_run.2).
  - apply surjective_pairing.
  - reflexivity.
Defined.
